(** * TimNet heating controller integration

    A shallow embedding of [custom_components/timnet]:
    - [modbus_client.py]: the minimal Modbus-TCP client,
    - [sensor.py]: the polling coordinator, the register decoder and the
      two binary indicators.

    Python integers are [Z], [bytes] values are lists of [Byte.byte],
    [str] values are [string] (UTF-8 bytes), [dict]s are [gmap]s and Python
    floats are IEEE binary64 values ([spec_float] at precision 53).
    Exceptions are explicit: a call returns [Ok v] or [Raise e]. *)

From Stdlib Require Import ZArith String Ascii List SpecFloat Lia.
From stdpp Require Import gmap strings list pretty.

Open Scope Z_scope.

(** ** Python values, exceptions and built-ins *)

Module Py.

(** The exception classes met in the integration.  All of them derive from
    [Exception]; [IOError] is the Python 3 alias of [OSError], and
    [SocketError] stands for the [OSError] subclasses raised by the socket
    layer (refused connection, timeout, reset). *)
Inductive exn : Type :=
| ValueError (msg : string)
| IOError (msg : string)
| SocketError (msg : string)
| IndexError (msg : string)
| StructError (msg : string)
| ZeroDivisionError (msg : string).

Inductive result (A : Type) : Type :=
| Ok (a : A)
| Raise (e : exn).
Arguments Ok {A} a.
Arguments Raise {A} e.

Definition is_ok {A} (r : result A) : bool :=
  match r with Ok _ => true | Raise _ => false end.

#[global] Instance result_ret : MRet result := fun A a => Ok a.
#[global] Instance result_bind : MBind result := fun A B k r =>
  match r with
  | Ok a => k a
  | Raise e => Raise e
  end.

(** The values a sensor may report: [None], an [int], a [float] or a [str]. *)
Inductive value : Type :=
| VNone
| VInt (n : Z)
| VFloat (x : spec_float)
| VStr (s : string).

Definition bytes : Type := list Byte.byte.

Definition len {A} (l : list A) : Z := Z.of_nat (length l).

Definition ord (b : Byte.byte) : Z := Z.of_N (Byte.to_N b).

Definition chr (v : Z) : Byte.byte :=
  match Byte.of_N (Z.to_N v) with
  | Some b => b
  | None => Byte.x00
  end.

(** [l[i]] for a non-negative index. *)
Definition getitem {A} (l : list A) (i : Z) : result A :=
  match l !! Z.to_nat i with
  | Some a => Ok a
  | None => Raise (IndexError "index out of range")
  end.

(** [l[a:b]] for non-negative bounds: out-of-range bounds are clipped. *)
Definition slice {A} (l : list A) (a b : Z) : list A :=
  take (Z.to_nat (b - a)) (drop (Z.to_nat a) l).

(** [range(start, stop, step)] for a positive step. *)
Definition range (start stop step : Z) : list Z :=
  (fun k => start + step * Z.of_nat k)
    <$> seq 0 (Z.to_nat ((stop - start + step - 1) / step)).

(** [enumerate(l)]. *)
Definition enumerate {A} (l : list A) : list (Z * A) :=
  imap (fun i a => (Z.of_nat i, a)) l.

(** [str(n)] for an integer. *)
Definition str (n : Z) : string := pretty n.

(** [sep.join(l)]. *)
Fixpoint join (sep : string) (l : list string) : string :=
  match l with
  | [] => ""
  | [s] => s
  | s :: rest => s +:+ sep +:+ join sep rest
  end.

(** [s.endswith(suffix)]. *)
Definition endswith (s suffix : string) : bool :=
  let n := String.length s in
  let k := String.length suffix in
  (k <=? n)%nat && String.eqb (substring (n - k) k s) suffix.

(** *** [struct] *)

Definition pack_B (v : Z) : result bytes :=
  if (0 <=? v) && (v <=? 255) then Ok [chr v]
  else Raise (StructError "ubyte format requires 0 <= number <= 255").

Definition pack_H (v : Z) : result bytes :=
  if (0 <=? v) && (v <=? 65535) then Ok [chr (v / 256); chr (v mod 256)]
  else Raise (StructError "'H' format requires 0 <= number <= 65535").

(** [struct.unpack('>H', b)[0]] *)
Definition unpack_H (b : bytes) : result Z :=
  match b with
  | [hi; lo] => Ok (256 * ord hi + ord lo)
  | _ => Raise (StructError "unpack requires a buffer of 2 bytes")
  end.

(** *** [bytes.hex] *)

Definition hex_digit (d : Z) : ascii :=
  if d <? 10 then ascii_of_nat (Z.to_nat (48 + d))
  else ascii_of_nat (Z.to_nat (87 + d)).

Fixpoint hex (b : bytes) : string :=
  match b with
  | [] => ""
  | x :: rest =>
      String (hex_digit (ord x / 16)) (String (hex_digit (ord x mod 16)) (hex rest))
  end.

(** *** Floats

    A Python [float] is an IEEE binary64 number.  The operations below are
    the correctly rounded ones of CPython, for operands of magnitude below
    [2^53] (every register word is below [2^16]). *)

Definition prec : Z := 53.
Definition emax : Z := 1024.

Definition float_of_int (n : Z) : spec_float :=
  binary_normalize prec emax n 0 false.

(** [a / b] on integers (true division). *)
Definition truediv (a b : Z) : result spec_float :=
  if b =? 0 then Raise (ZeroDivisionError "division by zero")
  else Ok (SFdiv prec emax (float_of_int a) (float_of_int b)).

(** Nearest integer to [m * 2^e], ties to even, for [m >= 0]. *)
Definition round_half_even (m e : Z) : Z :=
  if 0 <=? e then m * 2 ^ e
  else
    let d := 2 ^ (- e) in
    let q := m / d in
    let r := m mod d in
    match 2 * r ?= d with
    | Lt => q
    | Gt => q + 1
    | Eq => if Z.even q then q else q + 1
    end.

(** [round(x, 1)]: the decimal expansion of [x] is rounded to one digit
    after the point (ties to even) and the result is converted back to the
    nearest float. *)
Definition round1 (x : spec_float) : spec_float :=
  match x with
  | S754_finite s m e =>
      let n := round_half_even (10 * Z.pos m) e in
      let q := SFdiv prec emax (float_of_int n) (float_of_int 10) in
      if s then SFopp q else q
  | _ => x
  end.

End Py.

Import Py.

(** A state-and-exception monad for code that mutates [self] and talks to
    the outside world. *)
Definition M (S A : Type) : Type := S -> result A * S.

Definition raise {S A} (e : exn) : M S A := fun s => (Raise e, s).
Definition lift {S A} (r : result A) : M S A := fun s => (r, s).
Definition get {S} : M S S := fun s => (Ok s, s).
Definition modify {S} (f : S -> S) : M S () := fun s => (Ok (), f s).

#[global] Instance M_ret {S} : MRet (M S) := fun A a s => (Ok a, s).
#[global] Instance M_bind {S} : MBind (M S) := fun A B k m s =>
  match m s with
  | (Ok a, s') => k a s'
  | (Raise e, s') => (Raise e, s')
  end.

(** [try: body except Exception as err: handler err].  Every class of [exn]
    derives from [Exception], so the handler sees all of them; what the body
    did to the state before raising stays done. *)
Definition try_except {S A} (body : M S A) (handler : exn -> M S A) : M S A :=
  fun s =>
    match body s with
    | (Ok a, s') => (Ok a, s')
    | (Raise err, s') => handler err s'
    end.

(** [try: body finally: cleanup] *)
Definition finally {S A} (body : M S A) (cleanup : S -> S) : M S A :=
  fun s => let '(r, s') := body s in (r, cleanup s').

(** ** modbus_client.py *)

Module ModbusClient.

(** What the process does on the network, in order. *)
Inductive event : Type :=
| EvConnect (host : string) (port : Z) (timeout : spec_float)
| EvSettimeout (timeout : spec_float)
| EvSendall (adu : bytes)
| EvRecv (bufsize : Z)
| EvClose.

(** How the device behaves during one exchange.  [Replies wire] delivers the
    bytes [wire] to the single [recv] call. *)
Inductive peer : Type :=
| ConnectFails (msg : string)
| SendFails (msg : string)
| RecvFails (msg : string)
| Replies (wire : bytes).

Record MinimalModbusTcpClient : Type := mkClient {
  host : string;
  port : Z;
  timeout : spec_float;
  unit : Z;
  _tid : Z
}.

(** [MinimalModbusTcpClient(host, port, timeout=3.0, unit=1)] *)
Definition __init__ (host : string) (port : Z) (timeout : spec_float) (unit : Z)
  : MinimalModbusTcpClient :=
  mkClient host port timeout unit 0.

Definition default_timeout : spec_float := S754_finite false 6755399441055744 (-51).

(** The mutable state of a call: the client object and the network log. *)
Record state : Type := mkState {
  self : MinimalModbusTcpClient;
  log : list event
}.

Definition emit (ev : event) : M state () :=
  modify (fun s => mkState (self s) (log s ++ [ev])).

Definition set_tid (t : Z) : M state () :=
  modify (fun s =>
    mkState (mkClient (host (self s)) (port (self s)) (timeout (self s))
                      (unit (self s)) t)
            (log s)).

Definition _next_tid : M state Z :=
  s ← get;
  set_tid (Z.land (_tid (self s) + 1) 0xFFFF);;
  s' ← get;
  mret (_tid (self s')).

(** [socket.create_connection(...)] used as a context manager: the socket is
    closed when the block is left, normally or by an exception. *)
Definition with_connection {A} (p : peer) (body : M state A) : M state A :=
  s ← get;
  emit (EvConnect (host (self s)) (port (self s)) (timeout (self s)));;
  match p with
  | ConnectFails msg => raise (SocketError msg)
  | _ => finally body (fun s' => mkState (self s') (log s' ++ [EvClose]))
  end.

Definition sendall (p : peer) (adu : bytes) : M state () :=
  emit (EvSendall adu);;
  match p with
  | SendFails msg => raise (SocketError msg)
  | _ => mret ()
  end.

Definition recv (p : peer) (bufsize : Z) : M state bytes :=
  emit (EvRecv bufsize);;
  match p with
  | RecvFails msg => raise (SocketError msg)
  | Replies wire => mret (take (Z.to_nat bufsize) wire)
  | _ => mret []
  end.

Definition _send_request (p : peer) (pdu : bytes) : M state bytes :=
  tid ← _next_tid;
  let protocol := 0 in
  let length := len pdu + 1 in
  s ← get;
  h1 ← lift (pack_H tid);
  h2 ← lift (pack_H protocol);
  h3 ← lift (pack_H length);
  h4 ← lift (pack_B (unit (self s)));
  let header := h1 ++ h2 ++ h3 ++ h4 in
  let adu := header ++ pdu in
  with_connection p (
    emit (EvSettimeout (timeout (self s)));;
    sendall p adu;;
    data ← recv p 4096;
    if len data <? 7 then raise (IOError "Incomplete response")
    else
      let pdu_resp := drop 7 data in
      mret pdu_resp).

(** The body of the [for i in range(0, len(regs_bytes), 2)] loop. *)
Definition regs_step (regs_bytes : bytes) (acc : result (list Z)) (i : Z)
  : result (list Z) :=
  match acc with
  | Raise e => Raise e
  | Ok regs =>
      if i + 1 <? len regs_bytes then
        match unpack_H (slice regs_bytes i (i + 2)) with
        | Ok v => Ok (regs ++ [v])
        | Raise e => Raise e
        end
      else Ok regs
  end.

Definition regs_loop (regs_bytes : bytes) : result (list Z) :=
  foldl (regs_step regs_bytes) (Ok []) (range 0 (len regs_bytes) 2).

Definition read_holding_registers (p : peer) (address count : Z)
  : M state (list Z) :=
  if (count <? 1) || (count >? 125) then raise (ValueError "count must be 1..125")
  else
    b1 ← lift (pack_B 3);
    b2 ← lift (pack_H (Z.land address 0xFFFF));
    b3 ← lift (pack_H (Z.land count 0xFFFF));
    let pdu := b1 ++ b2 ++ b3 in
    resp ← _send_request p pdu;
    match resp with
    | [] => raise (IOError "No response")
    | _ =>
        fc ← lift (getitem resp 0);
        if negb (Z.land (ord fc) 0x80 =? 0) then
          raise (IOError ("Exception response: " +:+ hex resp))
        else
          byte_count ← lift (getitem resp 1);
          let regs_bytes := slice resp 2 (2 + ord byte_count) in
          regs ← lift (regs_loop regs_bytes);
          mret (take (Z.to_nat count) regs)
    end.

(** *** Specification vocabulary *)

(** The big-endian 16-bit words of a byte string, two bytes per word; an
    unpaired last byte contributes nothing. *)
Fixpoint words (b : bytes) : list Z :=
  match b with
  | hi :: lo :: rest => (256 * ord hi + ord lo) :: words rest
  | _ => []
  end.

(** What the single [recv(4096)] call hands to the client. *)
Definition received (wire : bytes) : bytes := take 4096 wire.

(** The result of [_send_request], as a function of the device behaviour and
    of the configured unit id. *)
Definition send_outcome (p : peer) (unit : Z) : result bytes :=
  match pack_B unit with
  | Raise e => Raise e
  | Ok _ =>
      match p with
      | ConnectFails msg | SendFails msg | RecvFails msg => Raise (SocketError msg)
      | Replies wire =>
          if len (received wire) <? 7 then Raise (IOError "Incomplete response")
          else Ok (drop 7 (received wire))
      end
  end.

(** What [read_holding_registers] makes of the bytes it received. *)
Definition reply_outcome (count : Z) (data : bytes) : result (list Z) :=
  if len data <? 7 then Raise (IOError "Incomplete response")
  else
    match drop 7 data with
    | [] => Raise (IOError "No response")
    | fc :: rest =>
        if negb (Z.land (ord fc) 0x80 =? 0) then
          Raise (IOError ("Exception response: " +:+ hex (fc :: rest)))
        else
          match rest with
          | [] => Raise (IndexError "index out of range")
          | bc :: body =>
              Ok (take (Z.to_nat count) (words (take (Z.to_nat (ord bc)) body)))
          end
    end.

(** The result of [read_holding_registers]. *)
Definition read_outcome (p : peer) (unit count : Z) : result (list Z) :=
  if (count <? 1) || (count >? 125) then Raise (ValueError "count must be 1..125")
  else
    match send_outcome p unit with
    | Raise e => Raise e
    | Ok _ =>
        match p with
        | Replies wire => reply_outcome count (received wire)
        | _ => Ok []
        end
    end.

(** A well-formed reply to a request for [count] registers: a 7-byte header,
    a function code without the exception bit, a byte count, and at least
    [count] register words both declared and present. *)
Definition well_formed (count : Z) (data : bytes) : bool :=
  match drop 7 data with
  | fc :: bc :: body =>
      (7 <=? len data) && (Z.land (ord fc) 0x80 =? 0)
      && (2 * count <=? ord bc) && (2 * count <=? len body)
  | _ => false
  end.

End ModbusClient.

(** ** sensor.py *)

Module Sensor.

(** An entry of [REGISTER_DEFINITIONS]; an absent dictionary key is [None]
    (for the flag [timnet_200_only]: [false]). *)
Record reg_def : Type := mkReg {
  address : Z;
  name : string;
  key : string;
  unit : option string;
  device_class : option string;
  state_class : option string;
  divider : option Z;
  entity_category : option string;
  icon : option string;
  timnet_200_only : bool
}.

Definition CELSIUS : string := "°C".
Definition MINUTES : string := "min".
Definition TEMPERATURE : string := "temperature".
Definition DURATION : string := "duration".
Definition MEASUREMENT : string := "measurement".
Definition TOTAL_INCREASING : string := "total_increasing".
Definition DIAGNOSTIC : string := "diagnostic".

Definition REGISTER_DEFINITIONS : list reg_def := [
  mkReg 0x0000 "Temperature T1" "TT" (Some CELSIUS) (Some TEMPERATURE)
        (Some MEASUREMENT) (Some 10) None (Some "mdi:thermometer") false;
  mkReg 0x0001 "Temperature T2" "TT2" (Some CELSIUS) (Some TEMPERATURE)
        (Some MEASUREMENT) (Some 10) None (Some "mdi:thermometer") true;
  mkReg 0x0002 "Combustion Time" "CAS" (Some MINUTES) (Some DURATION)
        (Some TOTAL_INCREASING) (Some 60) None (Some "mdi:fire-circle") false;
  mkReg 0x0003 "Flap Position" "SER1" (Some "%") None
        (Some MEASUREMENT) None None (Some "mdi:valve") false;
  mkReg 0x0005 "Combustion Mode" "REZIM" None None None None None
        (Some "mdi:fire") false;
  mkReg 0x0006 "Fuel Type" "PALIVO" None None None None None
        (Some "mdi:tree") false;
  mkReg 0x0007 "Refuel Offset" "PRILOZ" None None None None None
        (Some "mdi:plus-minus") false;
  mkReg 0x0008 "SDS Sensitivity" "SDS" None None None None (Some DIAGNOSTIC)
        (Some "mdi:tune") false;
  mkReg 0x0009 "Status Color" "BARVA" None None None None (Some DIAGNOSTIC)
        (Some "mdi:palette") false;
  mkReg 0x0010 "Sound Signalization" "BEEP" None None None None (Some DIAGNOSTIC)
        (Some "mdi:volume-high") false;
  mkReg 0x0011 "Relay 1" "RELE1" None None None None (Some DIAGNOSTIC)
        (Some "mdi:electric-switch") true;
  mkReg 0x0012 "Relay 2" "RELE2" None None None None (Some DIAGNOSTIC)
        (Some "mdi:electric-switch") true;
  mkReg 0x0013 "Sensor Fault" "PORUCHA" None None None None (Some DIAGNOSTIC)
        (Some "mdi:alert-circle") false;
  mkReg 0x0014 "Unit Status" "STAT" None None None None None
        (Some "mdi:information") false;
  mkReg 0x0015 "Total Refuel Count" "P_LIFE" None None
        (Some TOTAL_INCREASING) None None (Some "mdi:counter") false
].

(** *** TimNetCoordinator *)

(** [data] is the attribute of the base class [DataUpdateCoordinator]: the
    value returned by the latest refresh, [None] before the first one. *)
Record TimNetCoordinator : Type := mkCoord {
  host : string;
  port : Z;
  unit_id : Z;
  _last_valid_data : gmap Z Z;
  connection_ok : bool;
  data : option (gmap Z Z)
}.

(** A new coordinator: no cached reading, [connection_ok] set, and no
    [data] yet. *)
Definition __init__ (host : string) (port : Z) (unit : Z) : TimNetCoordinator :=
  mkCoord host port unit ∅ true None.

Definition set_last_valid_data (d : gmap Z Z) : M TimNetCoordinator () :=
  modify (fun c => mkCoord (host c) (port c) (unit_id c) d (connection_ok c) (data c)).

Definition set_connection_ok (b : bool) : M TimNetCoordinator () :=
  modify (fun c => mkCoord (host c) (port c) (unit_id c) (_last_valid_data c) b (data c)).

Definition set_data (d : gmap Z Z) : M TimNetCoordinator () :=
  modify (fun c =>
    mkCoord (host c) (port c) (unit_id c) (_last_valid_data c) (connection_ok c) (Some d)).

(** Truth value of a dictionary: non-empty. *)
Definition dict_bool (d : gmap Z Z) : bool := negb (bool_decide (d = ∅)).

(** Truth value of [coordinator.data], which may be [None]. *)
Definition data_bool (d : option (gmap Z Z)) : bool :=
  match d with
  | None => false
  | Some m => dict_bool m
  end.

(** [_fetch_data] together with the network log of its exchange.  The client
    is created afresh on every call. *)
Definition _fetch_data_io (p : ModbusClient.peer) (self : TimNetCoordinator)
  : result (gmap Z Z) * list ModbusClient.event :=
  let client :=
    ModbusClient.__init__ (host self) (port self) ModbusClient.default_timeout
                          (unit_id self) in
  let '(r, st) :=
    ModbusClient.read_holding_registers p 0x0000 22 (ModbusClient.mkState client []) in
  (values ← r;
   mret (foldl (fun (data : gmap Z Z) '(i, value) => <[i := value]> data)
               ∅ (enumerate values)),
   ModbusClient.log st).

Definition _fetch_data (p : ModbusClient.peer) (self : TimNetCoordinator)
  : result (gmap Z Z) :=
  fst (_fetch_data_io p self).

(** [await self.hass.async_add_executor_job(f)]: runs [f] on the current
    object and hands back its result or its exception. *)
Definition async_add_executor_job {A} (f : TimNetCoordinator -> result A)
  : M TimNetCoordinator A :=
  self ← get; lift (f self).

Definition _async_update_data (p : ModbusClient.peer)
  : M TimNetCoordinator (gmap Z Z) :=
  try_except
    (data ← async_add_executor_job (_fetch_data p);
     if dict_bool data then
       set_last_valid_data data;;
       set_connection_ok true;;
       mret data
     else
       set_connection_ok false;;
       self ← get;
       mret (_last_valid_data self))
    (fun err =>
       set_connection_ok false;;
       self ← get;
       mret (_last_valid_data self)).

(** One refresh of the base class: the value returned by
    [_async_update_data] becomes [coordinator.data]; an exception leaves
    [data] as it was. *)
Definition async_refresh (p : ModbusClient.peer) (self : TimNetCoordinator)
  : TimNetCoordinator :=
  match _async_update_data p self with
  | (Ok d, self') => snd (set_data d self')
  | (Raise _, self') => self'
  end.

(** *** TimNetSensor *)

Definition STATUS_MAP : gmap Z string :=
  list_to_map [
    (0, "Start napájení");
    (1, "Klidový stav 100%");
    (2, "Klidový stav 0%");
    (3, "Zatápění");
    (4, "Start regulace");
    (5, "Hoření (vzrůstající teplota)");
    (6, "Hoření (klesající teplota)");
    (7, "Přiložit");
    (8, "Žárový proces");
    (10, "Nezatopeno");
    (13, "Přetopeno");
    (14, "Dlouho otevřená dvířka");
    (15, "Testovací režim");
    (20, "Porucha teploty") ].

Definition MODE_MAP : gmap Z string :=
  {[ 1 := "Eco"; 2 := "Standard"; 3 := "Turbo" ]}.
Definition FUEL_MAP : gmap Z string :=
  {[ 1 := "Dřevo"; 2 := "Brikety" ]}.
Definition REFUEL_MAP : gmap Z string :=
  {[ 1 := "-2"; 2 := "-1"; 3 := "Standard"; 4 := "+1"; 5 := "+2" ]}.
Definition COLOR_MAP : gmap Z string :=
  {[ 0 := "Bez barvy"; 1 := "Žlutá"; 2 := "Zelená"; 3 := "Červená" ]}.
Definition BEEP_MAP : gmap Z string :=
  {[ 0 := "Vypnuto"; 15 := "Zapnuto" ]}.
Definition RELAY_MAP : gmap Z string :=
  {[ 0 := "Rozepnuto"; 1 := "Sepnuto" ]}.

Record TimNetSensor : Type := mkSensor {
  _reg_def : reg_def;
  _address : Z
}.

Definition TimNetSensor__init__ (rd : reg_def) : TimNetSensor :=
  mkSensor rd (address rd).

(** [m.get(k, default)] where a hit is a label and the default is any value. *)
Definition get_or (m : gmap Z string) (k : Z) (default : value) : value :=
  match m !! k with
  | Some s => VStr s
  | None => default
  end.

(** [round(raw_value / divider, 1)] *)
Definition round_div (raw_value d : Z) : result value :=
  x ← truediv raw_value d;
  mret (VFloat (round1 x)).

(** The body of [native_value] once [raw_value] has been read. *)
Definition decode (rd : reg_def) (raw_value : Z) : result value :=
  let key := key rd in
  if (key =? "TT")%string || (key =? "TT2")%string then
    if raw_value =? 20000 then Ok (VStr "HI")
    else if (raw_value =? -20000) || (raw_value =? 65536 - 20000) then Ok (VStr "LO")
    else if raw_value =? 20001 then Ok (VStr "---")
    else if raw_value =? 20002 then Ok (VStr "Neaktivní")
    else
      match divider rd with
      | Some d => round_div raw_value d
      | None => Ok (VInt raw_value)
      end
  else if (key =? "CAS")%string then
    match divider rd with
    | Some d => round_div raw_value d
    | None => Ok (VInt raw_value)
    end
  else if (key =? "SER1")%string then
    if raw_value =? 255 then Ok (VStr "Inicializace")
    else Ok (VInt (Z.min 100 (Z.max 0 raw_value)))
  else if (key =? "SDS")%string then
    if raw_value =? 255 then Ok (VStr "Vypnuto")
    else
      let active := raw_value mod 10 in
      let level := raw_value / 10 in
      let level_map : gmap Z string :=
        {[ 1 := "-2"; 2 := "-1"; 3 := "Standard"; 4 := "+1"; 5 := "+2" ]} in
      let level_str := default "Neznámé" (level_map !! level) in
      Ok (VStr (level_str +:+ " " +:+
                (if active =? 1 then "(Aktivní)" else "(Neaktivní)")))
  else if (key =? "STAT")%string then
    Ok (get_or STATUS_MAP raw_value (VStr ("Neznámý (" +:+ str raw_value +:+ ")")))
  else if (key =? "REZIM")%string then
    Ok (get_or MODE_MAP raw_value (VInt raw_value))
  else if (key =? "PALIVO")%string then
    Ok (get_or FUEL_MAP raw_value (VInt raw_value))
  else if (key =? "PRILOZ")%string then
    Ok (get_or REFUEL_MAP raw_value (VInt raw_value))
  else if (key =? "BARVA")%string then
    Ok (get_or COLOR_MAP raw_value (VInt raw_value))
  else if (key =? "BEEP")%string then
    Ok (get_or BEEP_MAP raw_value (VInt raw_value))
  else if (key =? "RELE1")%string || (key =? "RELE2")%string then
    Ok (get_or RELAY_MAP raw_value (VInt raw_value))
  else if (key =? "PORUCHA")%string then
    if raw_value =? 0 then Ok (VStr "Bez poruchy")
    else
      let faults : list string := [] in
      let faults := if negb (Z.land raw_value 1 =? 0) then faults ++ ["T1"] else faults in
      let faults := if negb (Z.land raw_value 2 =? 0) then faults ++ ["T2"] else faults in
      let faults := if negb (Z.land raw_value 8 =? 0) then faults ++ ["Dvířka"] else faults in
      match faults with
      | [] => Ok (VStr ("Neznámá (" +:+ str raw_value +:+ ")"))
      | _ => Ok (VStr (join ", " faults))
      end
  else
    match divider rd with
    | Some d => round_div raw_value d
    | None => Ok (VInt raw_value)
    end.

Definition native_value (coordinator : TimNetCoordinator) (self : TimNetSensor)
  : result value :=
  if negb (data_bool (data coordinator)) then Ok VNone
  else
    match data coordinator ≫= (fun d => d !! _address self) with
    | None => Ok VNone
    | Some raw_value => decode (_reg_def self) raw_value
    end.

(** *** TimNetDoorSensor: [None] when unknown. *)
Definition door_is_on (coordinator : TimNetCoordinator) : option bool :=
  if negb (data_bool (data coordinator)) then None
  else
    match data coordinator ≫= (fun d => d !! 0x0004) with
    | None => None
    | Some raw_value => Some (negb (raw_value =? 0))
    end.

(** *** TimNetConnectionSensor *)
Definition is_on (coordinator : TimNetCoordinator) : bool :=
  connection_ok coordinator && data_bool (data coordinator).

Definition available (coordinator : TimNetCoordinator) : bool := true.

(** *** Specification vocabulary *)

(** The dictionary built by the loop of [_fetch_data]. *)
Definition dict_of_list (values : list Z) : gmap Z Z :=
  foldl (fun (data : gmap Z Z) '(i, value) => <[i := value]> data) ∅ (enumerate values).

(** The poll tick takes a failure path: the fetch raised, or its reading is
    empty. *)
Definition poll_failed (p : ModbusClient.peer) (c : TimNetCoordinator) : bool :=
  match _fetch_data p c with
  | Ok d => negb (dict_bool d)
  | Raise _ => true
  end.

(** The same, as a proposition. *)
Definition poll_failed_prop (p : ModbusClient.peer) (c : TimNetCoordinator) : Prop :=
  (exists e, _fetch_data p c = Raise e) \/ _fetch_data p c = Ok ∅.

(** [raw / 10] as a float. *)
Definition tenth (raw : Z) : spec_float :=
  SFdiv prec emax (float_of_int raw) (float_of_int 10).

(** The enumerated registers, each with its lookup table. *)
Definition ENUM_TABLES : list (string * gmap Z string) :=
  [ ("STAT", STATUS_MAP); ("REZIM", MODE_MAP); ("PALIVO", FUEL_MAP);
    ("PRILOZ", REFUEL_MAP); ("BARVA", COLOR_MAP); ("BEEP", BEEP_MAP);
    ("RELE1", RELAY_MAP); ("RELE2", RELAY_MAP) ].

Definition unknown_status (raw : Z) : string := "Neznámý (" +:+ str raw +:+ ")".

(** The names of the faults flagged in [raw], in ascending bit order. *)
Definition fault_names (raw : Z) : list string :=
  (if Z.testbit raw 0 then ["T1"] else [])
  ++ (if Z.testbit raw 1 then ["T2"] else [])
  ++ (if Z.testbit raw 3 then ["Dvířka"] else []).

Definition unknown_fault (raw : Z) : string := "Neznámá (" +:+ str raw +:+ ")".

(** The level table of the sensitivity register. *)
Definition level_map : gmap Z string :=
  {[ 1 := "-2"; 2 := "-1"; 3 := "Standard"; 4 := "+1"; 5 := "+2" ]}.

Definition LEVEL_LABELS : list string :=
  ["-2"; "-1"; "Standard"; "+1"; "+2"; "Neznámé"].

End Sensor.

(** ** Sample inputs *)

Module Samples.

Import ModbusClient Sensor.

Definition to_bytes (l : list Z) : bytes := chr <$> l.

Definition client0 : MinimalModbusTcpClient :=
  ModbusClient.__init__ "10.0.0.11" 502 ModbusClient.default_timeout 1.

(** A reply carrying three register words and one unpaired byte. *)
Definition wire_three_words_and_a_half : bytes :=
  to_bytes [0; 1; 0; 0; 0; 10; 1; 3; 7; 0; 215; 78; 33; 4; 176; 50].

(** A reply whose payload is the function code alone. *)
Definition wire_function_code_only : bytes := to_bytes [0; 1; 0; 0; 0; 2; 1; 3].

Definition wire_truncated : bytes := to_bytes [0; 1; 0; 0].

Definition wire_header_only : bytes := to_bytes [0; 1; 0; 0; 0; 1; 1].

Definition wire_exception : bytes := to_bytes [0; 1; 0; 0; 0; 3; 1; 131; 2].

(** A reply that declares zero register bytes. *)
Definition wire_no_words : bytes := to_bytes [0; 1; 0; 0; 0; 3; 1; 3; 0].

(** A reply carrying a single register word. *)
Definition wire_one_word : bytes := to_bytes [0; 1; 0; 0; 0; 5; 1; 3; 2; 0; 215].

(** A reply carrying the 22 words asked for. *)
Definition wire_full_block : bytes :=
  to_bytes ([0; 1; 0; 0; 0; 47; 1; 3; 44]
            ++ [0; 215; 78; 33; 4; 176; 0; 50; 0; 0; 0; 2; 0; 1; 0; 3; 0; 31; 0; 2; 0; 0; 0; 0]
            ++ [0; 0; 0; 0; 0; 0; 0; 0; 0; 15; 0; 0; 0; 0; 0; 0; 0; 5; 1; 44]).

Definition coordinator0 : TimNetCoordinator := Sensor.__init__ "10.0.0.11" 502 1.

(** A coordinator holding a reading cached by an earlier poll. *)
Definition coordinator_stale : TimNetCoordinator :=
  mkCoord "10.0.0.11" 502 1 {[ 0 := 215 ]} true (Some {[ 0 := 215 ]}).

Definition reg_TT : reg_def :=
  mkReg 0x0000 "Temperature T1" "TT" (Some CELSIUS) (Some TEMPERATURE)
        (Some MEASUREMENT) (Some 10) None (Some "mdi:thermometer") false.

Definition reg_STAT : reg_def :=
  mkReg 0x0014 "Unit Status" "STAT" None None None None None
        (Some "mdi:information") false.

(** A descriptor that carries nothing but its key. *)
Definition reg_of_key (k : string) : reg_def :=
  mkReg 0 "" k None None None None None None false.

End Samples.

(** ** sensor.py: diagnostic attributes and entity set-up *)

Module SensorPlatform.

Import ModbusClient Sensor.

(** Upper-case hexadecimal digits of a number, most significant first. *)
Fixpoint hex_upper (d : Hexadecimal.uint) : string :=
  match d with
  | Hexadecimal.Nil => ""
  | Hexadecimal.D0 r => String "0" (hex_upper r)
  | Hexadecimal.D1 r => String "1" (hex_upper r)
  | Hexadecimal.D2 r => String "2" (hex_upper r)
  | Hexadecimal.D3 r => String "3" (hex_upper r)
  | Hexadecimal.D4 r => String "4" (hex_upper r)
  | Hexadecimal.D5 r => String "5" (hex_upper r)
  | Hexadecimal.D6 r => String "6" (hex_upper r)
  | Hexadecimal.D7 r => String "7" (hex_upper r)
  | Hexadecimal.D8 r => String "8" (hex_upper r)
  | Hexadecimal.D9 r => String "9" (hex_upper r)
  | Hexadecimal.Da r => String "A" (hex_upper r)
  | Hexadecimal.Db r => String "B" (hex_upper r)
  | Hexadecimal.Dc r => String "C" (hex_upper r)
  | Hexadecimal.Dd r => String "D" (hex_upper r)
  | Hexadecimal.De r => String "E" (hex_upper r)
  | Hexadecimal.Df r => String "F" (hex_upper r)
  end.

Fixpoint zeros (n : nat) : string :=
  match n with
  | O => ""
  | S k => String "0" (zeros k)
  end.

(** [f"{n:04X}"]: upper-case hexadecimal, padded with zeros after the sign to
    a width of four characters. *)
Definition format_04X (n : Z) : string :=
  let digits := hex_upper (N.to_hex_uint (Z.abs_N n)) in
  let sign := if n <? 0 then "-" else "" in
  sign +:+ zeros (4 - String.length sign - String.length digits) +:+ digits.

(** [TimNetSensor.extra_state_attributes] *)
Definition extra_state_attributes (coordinator : TimNetCoordinator) (self : TimNetSensor)
  : gmap string value :=
  let attrs : gmap string value :=
    {[ "address" := VStr ("0x" +:+ format_04X (_address self));
       "register_key" := VStr (key (_reg_def self));
       "host" := VStr (host coordinator);
       "port" := VInt (port coordinator) ]} in
  if data_bool (data coordinator) then
    match data coordinator ≫= (fun d => d !! _address self) with
    | Some raw_value => <[ "raw_value" := VInt raw_value ]> attrs
    | None => attrs
    end
  else attrs.

(** [TimNetDoorSensor.extra_state_attributes] *)
Definition door_extra_state_attributes (coordinator : TimNetCoordinator)
  : gmap string value :=
  let attrs : gmap string value :=
    {[ "address" := VStr "0x0004";
       "register_key" := VStr "INP";
       "host" := VStr (host coordinator);
       "port" := VInt (port coordinator) ]} in
  if data_bool (data coordinator) then
    match data coordinator ≫= (fun d => d !! 0x0004) with
    | Some raw_value => <[ "raw_value" := VInt raw_value ]> attrs
    | None => attrs
    end
  else attrs.

(** [TimNetConnectionSensor.extra_state_attributes] *)
Definition connection_extra_state_attributes (coordinator : TimNetCoordinator)
  : gmap string value :=
  {[ "host" := VStr (host coordinator); "port" := VInt (port coordinator) ]}.

(** The configuration the platform reads from the entry: [host] and [port]
    are always there, [unit] and [scan_interval] may be absent. *)
Record entry_data : Type := mkEntry {
  conf_host : string;
  conf_port : Z;
  conf_unit : option Z;
  conf_scan_interval : option Z
}.

(** The entities handed to [async_add_entities]. *)
Inductive entity : Type :=
| SensorEntity (s : TimNetSensor)
| DoorEntity
| ConnectionEntity.

(** How the set-up ends: with the entity list, or with the [AttributeError]
    of calling [.get] on [None]. *)
Inductive setup_outcome : Type :=
| Added (entities : list entity)
| AttributeError (msg : string).

(** [t2_value in [20000, 20001, 20002]] *)
Definition t2_inactive (t2_value : Z) : bool :=
  existsb (Z.eqb t2_value) [20000; 20001; 20002].

(** One round of the loop over [REGISTER_DEFINITIONS]. *)
Definition setup_step (coordinator : TimNetCoordinator) (acc : setup_outcome)
    (rd : reg_def) : setup_outcome :=
  match acc with
  | AttributeError msg => AttributeError msg
  | Added entities =>
      if timnet_200_only rd then
        match data coordinator with
        | None => AttributeError "'NoneType' object has no attribute 'get'"
        | Some d =>
            let t2_value := default 0 (d !! 0x0001) in
            if t2_inactive t2_value then Added entities
            else Added (entities ++ [SensorEntity (TimNetSensor__init__ rd)])
        end
      else Added (entities ++ [SensorEntity (TimNetSensor__init__ rd)])
  end.

(** The part of [async_setup_entry] that follows the creation of the
    coordinator. *)
Definition add_entities (coordinator : TimNetCoordinator) : setup_outcome :=
  match foldl (setup_step coordinator) (Added []) REGISTER_DEFINITIONS with
  | Added entities => Added ((entities ++ [DoorEntity]) ++ [ConnectionEntity])
  | AttributeError msg => AttributeError msg
  end.

Definition async_setup_entry (entry : entry_data) : setup_outcome :=
  let host := conf_host entry in
  let port := conf_port entry in
  let unit := default 1 (conf_unit entry) in
  let coordinator := Sensor.__init__ host port unit in
  add_entities coordinator.

(** The [_attr_unique_id] of an entity created for the config entry
    [entry_id]. *)
Definition unique_id (entry_id : string) (e : entity) : string :=
  match e with
  | SensorEntity s => entry_id +:+ "_" +:+ key (_reg_def s)
  | DoorEntity => entry_id +:+ "_door"
  | ConnectionEntity => entry_id +:+ "_connection"
  end.

End SensorPlatform.

(** ** config_flow.py *)

Module ConfigFlow.

Import ModbusClient.

(** What [_test_connection] may raise: the [ConnectionError] of its own, or
    an exception of the socket layer or of [struct], passed on unchanged. *)
Inductive flow_exn : Type :=
| ConnectionError (msg : string)
| Reraised (e : exn).

(** A computation of the flow: it extends the network log and returns a
    value or raises. *)
Definition P (A : Type) : Type := list event -> (flow_exn + A) * list event.

#[global] Instance P_ret : MRet P := fun A a log => (inr a, log).

#[global] Instance P_bind : MBind P := fun A B k m log =>
  match m log with
  | (inr a, log') => k a log'
  | (inl e, log') => (inl e, log')
  end.

Definition fail {A} (e : flow_exn) : P A := fun log => (inl e, log).

Definition note (ev : event) : P () := fun log => (inr (), log ++ [ev]).

Definition of_result {A} (r : result A) : P A :=
  match r with
  | Ok a => mret a
  | Raise e => fail (Reraised e)
  end.

(** The socket of the probe, used as a context manager. *)
Definition probe_connection {A} (p : peer) (host : string) (port : Z)
    (timeout : spec_float) (body : P A) : P A :=
  note (EvConnect host port timeout);;
  match p with
  | ConnectFails msg => fail (Reraised (SocketError msg))
  | _ => fun log => let '(r, log') := body log in (r, log' ++ [EvClose])
  end.

Definition probe_sendall (p : peer) (adu : bytes) : P () :=
  note (EvSendall adu);;
  match p with
  | SendFails msg => fail (Reraised (SocketError msg))
  | _ => mret ()
  end.

Definition probe_recv (p : peer) (bufsize : Z) : P bytes :=
  note (EvRecv bufsize);;
  match p with
  | RecvFails msg => fail (Reraised (SocketError msg))
  | Replies wire => mret (take (Z.to_nat bufsize) wire)
  | _ => mret []
  end.

(** [_test_connection(host, port, unit)].  The timeout, written [3], is the
    duration 3.0 of the client.  The handler logs the exception and raises it
    again. *)
Definition _test_connection (p : peer) (host : string) (port unit : Z) : P bool :=
  probe_connection p host port (float_of_int 3) (
    note (EvSettimeout (float_of_int 3));;
    b1 ← of_result (pack_B 3);
    b2 ← of_result (pack_H 0);
    b3 ← of_result (pack_H 1);
    let pdu := b1 ++ b2 ++ b3 in
    h1 ← of_result (pack_H 1);
    h2 ← of_result (pack_H 0);
    h3 ← of_result (pack_H (len pdu + 1));
    h4 ← of_result (pack_B unit);
    let mbap := h1 ++ h2 ++ h3 ++ h4 in
    probe_sendall p (mbap ++ pdu);;
    resp ← probe_recv p 4096;
    if len resp <? 9 then fail (ConnectionError "Invalid response")
    else mret true).

End ConfigFlow.

(** ** Further specification vocabulary *)

Module ClientVocabulary.

Import ModbusClient.

(** The client after its transaction id has been set to [t]. *)
Definition with_tid (c : MinimalModbusTcpClient) (t : Z) : MinimalModbusTcpClient :=
  mkClient (host c) (port c) (timeout c) (unit c) t.

(** The transaction id that follows [t]. *)
Definition succ_tid (t : Z) : Z := (t + 1) mod 65536.

(** The frame of a read request as the protocol lays it out: transaction id,
    protocol id 0, length 6, unit id, function code 3, address and count, all
    big-endian. *)
Definition request_adu (tid unit address count : Z) : bytes :=
  chr <$> [ tid / 256; tid mod 256; 0; 0; 0; 6; unit;
            3; (address mod 65536) / 256; (address mod 65536) mod 256;
            (count mod 65536) / 256; (count mod 65536) mod 256 ].

(** The network events of one exchange with a device behaving as [p]. *)
Definition exchange_events (c : MinimalModbusTcpClient) (p : peer) (adu : bytes)
  : list event :=
  EvConnect (host c) (port c) (timeout c) ::
  match p with
  | ConnectFails _ => []
  | SendFails _ => [EvSettimeout (timeout c); EvSendall adu; EvClose]
  | RecvFails _ | Replies _ =>
      [EvSettimeout (timeout c); EvSendall adu; EvRecv 4096; EvClose]
  end.

Definition is_connect (ev : event) : bool :=
  match ev with EvConnect _ _ _ => true | _ => false end.

Definition is_close (ev : event) : bool :=
  match ev with EvClose => true | _ => false end.

Definition is_sendall (ev : event) : bool :=
  match ev with EvSendall _ => true | _ => false end.

(** The unit id fits the format [B] of [struct.pack]. *)
Definition byte_unit (u : Z) : bool := (0 <=? u) && (u <=? 255).

(** The device accepts the connection. *)
Definition connects (p : peer) : bool :=
  match p with ConnectFails _ => false | _ => true end.

(** Successive reads on one client, each against its own device behaviour,
    address and count. *)
Definition reads (reqs : list (peer * Z * Z)) (st : state) : state :=
  foldl (fun s '(p, address, count) => snd (read_holding_registers p address count s))
        st reqs.

(** [b''.join(struct.pack('>H', w) for w in ws)] *)
Fixpoint pack_words (ws : list Z) : result bytes :=
  match ws with
  | [] => Ok []
  | w :: rest => b ← pack_H w; bs ← pack_words rest; mret (b ++ bs)
  end.

End ClientVocabulary.

Module SensorVocabulary.

Import ModbusClient Sensor SensorPlatform.

(** Successive poll ticks, each against its own device behaviour. *)
Definition polls (ps : list peer) (c : TimNetCoordinator) : TimNetCoordinator :=
  foldl (fun c p => async_refresh p c) c ps.

(** Two coordinators configured alike. *)
Definition same_config (c c' : TimNetCoordinator) : Prop :=
  host c' = host c /\ port c' = port c /\ unit_id c' = unit_id c.

(** The states a coordinator goes through: the initial one and those left
    by poll ticks. *)
Definition reachable (c : TimNetCoordinator) : Prop :=
  exists host port unit ps, c = polls ps (Sensor.__init__ host port unit).

(** The raw word a sensor reads from the coordinator, if any. *)
Definition raw_at (c : TimNetCoordinator) (address : Z) : option Z :=
  data c ≫= (fun d => d !! address).

(** Equality test on floats, by representation. *)
Definition float_eqb (x y : spec_float) : bool :=
  match x, y with
  | S754_zero a, S754_zero b => Bool.eqb a b
  | S754_infinity a, S754_infinity b => Bool.eqb a b
  | S754_nan, S754_nan => true
  | S754_finite a m e, S754_finite b n f =>
      Bool.eqb a b && (m =? n)%positive && (e =? f)
  | _, _ => false
  end.

(** [round((60 * k) / 60, 1) == float(k)] *)
Definition minutes_exact (k : Z) : bool :=
  float_eqb (round1 (SFdiv prec emax (float_of_int (60 * k)) (float_of_int 60)))
            (float_of_int k).

(** What tells an entity from the others: the key of its register, or
    [door], [connection]. *)
Definition entity_key (e : entity) : string :=
  match e with
  | SensorEntity s => key (_reg_def s)
  | DoorEntity => "door"
  | ConnectionEntity => "connection"
  end.

End SensorVocabulary.

(** ** The Modbus client *)

Section ClientFacts.

Import ModbusClient Samples.

Lemma words_short (b : bytes) : (length b <= 1)%nat -> words b = [].
Proof. destruct b as [|x [|y b]]; simpl; auto; lia. Qed.

Lemma regs_loop_from (m : nat) :
  forall (b : bytes) (acc : list Z) (k0 : nat),
    foldl (regs_step b) (Ok acc) ((fun k => 0 + 2 * Z.of_nat k) <$> seq k0 m)
    = Ok (acc ++ words (take (2 * m) (drop (2 * k0) b))).
Proof.
  induction m as [|m IH]; intros b acc k0.
  - simpl. now rewrite app_nil_r.
  - cbn [seq]. rewrite fmap_cons. cbn [foldl].
    unfold regs_step at 2. unfold len, slice.
    replace (Z.to_nat (0 + 2 * Z.of_nat k0 + 2 - (0 + 2 * Z.of_nat k0))) with 2%nat by lia.
    replace (Z.to_nat (0 + 2 * Z.of_nat k0)) with (2 * k0)%nat by lia.
    assert (Hd : drop (2 * S k0) b = drop 2 (drop (2 * k0) b)).
    { rewrite drop_drop. f_equal. lia. }
    destruct (Z.ltb_spec (0 + 2 * Z.of_nat k0 + 1) (Z.of_nat (length b))) as [Hlt|Hge].
    + destruct (drop (2 * k0) b) as [|hi [|lo rest]] eqn:E.
      * apply (f_equal length) in E. rewrite length_drop in E. simpl in E. lia.
      * apply (f_equal length) in E. rewrite length_drop in E. simpl in E. lia.
      * change (take 2 (hi :: lo :: rest)) with [hi; lo]. cbn [unpack_H]. rewrite IH, Hd. cbn [drop].
        replace (2 * S m)%nat with (S (S (2 * m))) by lia.
        cbn [firstn words]. rewrite <- app_assoc. reflexivity.
    + rewrite IH, Hd.
      assert (Hl : (length (drop (2 * k0) b) <= 1)%nat) by (rewrite length_drop; lia).
      rewrite (words_short (take (2 * S m) _)) by (rewrite length_take; lia).
      rewrite words_short; [reflexivity|].
      rewrite length_take, length_drop. lia.
Qed.

Lemma regs_loop_words (b : bytes) : regs_loop b = Ok (words b).
Proof.
  unfold regs_loop, range.
  rewrite regs_loop_from. cbn [drop app]. f_equal.
  rewrite Nat.mul_0_r, drop_0. rewrite take_ge; [reflexivity|].
  unfold len.
  replace (Z.of_nat (length b) - 0 + 2 - 1) with (Z.of_nat (length b) + 1) by lia.
  assert (H := Z.div_mod (Z.of_nat (length b) + 1) 2 ltac:(lia)).
  assert (H2 := Z.mod_pos_bound (Z.of_nat (length b) + 1) 2 ltac:(lia)).
  lia.
Qed.

Lemma length_words (b : bytes) : length (words b) = (length b / 2)%nat.
Proof.
  assert (H : forall n (b : bytes), (length b <= n)%nat -> length (words b) = (length b / 2)%nat).
  { clear b. induction n as [|n IH]; intros [|x [|y b]] Hn;
      cbn [words length] in *; try reflexivity; try lia.
    rewrite IH by lia.
    replace (S (S (length b))) with (length b + 1 * 2)%nat by lia.
    rewrite Nat.div_add by lia. lia. }
  apply (H (length b)). lia.
Qed.

Lemma words_lookup (b : bytes) (i : nat) (hi lo : Byte.byte) :
  b !! (2 * i)%nat = Some hi -> b !! (2 * i + 1)%nat = Some lo ->
  words b !! i = Some (256 * ord hi + ord lo).
Proof.
  revert b. induction i as [|i IH]; intros [|x [|y b]]; cbn; try discriminate.
  - intros [= ->] [= ->]. reflexivity.
  - replace (i + S (i + 0))%nat with (S (2 * i)) by lia.
    replace (i + S (i + 0) + 1)%nat with (S (2 * i + 1)) by lia.
    cbn. apply IH.
Qed.

Lemma words_bound (b : bytes) (w : Z) : w ∈ words b -> 0 <= w < 65536.
Proof.
  assert (Hb : forall x : Byte.byte, 0 <= ord x < 256).
  { intros x. unfold ord. pose proof (Byte.to_N_bounded x). lia. }
  assert (H : forall n (b : bytes), (length b <= n)%nat -> w ∈ words b -> 0 <= w < 65536).
  { clear b. induction n as [|n IH]; intros [|x [|y b]] Hn; cbn [words length] in *;
      try (intros Hin; now apply elem_of_nil in Hin).
    - lia.
    - intros [->|Hin]%elem_of_cons.
      + pose proof (Hb x). pose proof (Hb y). lia.
      + apply (IH b); [lia|exact Hin]. }
  apply (H (length b)). lia.
Qed.

Lemma ord_nonneg (b : Byte.byte) : 0 <= ord b < 256.
Proof. unfold ord. pose proof (Byte.to_N_bounded b). lia. Qed.

Lemma land_FFFF_range (x : Z) : 0 <= Z.land x 0xFFFF <= 65535.
Proof.
  change 0xFFFF with (Z.ones 16). rewrite Z.land_ones by lia.
  change (2 ^ 16) with 65536. change (Z.ones 16) with 65535.
  pose proof (Z.mod_pos_bound x 65536 ltac:(lia)). lia.
Qed.

Lemma pack_H_ok (v : Z) :
  0 <= v <= 65535 -> pack_H v = Ok [chr (v / 256); chr (v mod 256)].
Proof.
  intros H. unfold pack_H.
  destruct (Z.leb_spec 0 v); [|lia]. destruct (Z.leb_spec v 65535); [|lia]. reflexivity.
Qed.

Lemma pack_B_ok (v : Z) : 0 <= v <= 255 -> pack_B v = Ok [chr v].
Proof.
  intros H. unfold pack_B.
  destruct (Z.leb_spec 0 v); [|lia]. destruct (Z.leb_spec v 255); [|lia]. reflexivity.
Qed.

Lemma send_request_outcome (p : peer) (pdu : bytes) (st : state) :
  len pdu + 1 <= 65535 ->
  fst (_send_request p pdu st) = send_outcome p (unit (self st)).
Proof.
  intros Hl. unfold _send_request, _next_tid, send_outcome.
  unfold mbind, M_bind, mret, M_ret, get, set_tid, modify, lift.
  cbn [self log _tid unit host port timeout].
  rewrite (pack_H_ok (Z.land _ _)) by apply land_FFFF_range.
  rewrite (pack_H_ok 0) by lia.
  rewrite (pack_H_ok (len pdu + 1)) by (unfold len in *; lia).
  destruct (pack_B (unit (self st))) as [h4|e]; [|reflexivity].
  unfold with_connection, finally, sendall, recv, emit, modify, raise,
    mbind, M_bind, mret, M_ret, get.
  cbn [self log].
  destruct p as [msg|msg|msg|wire]; try reflexivity.
  change (take (Z.to_nat 4096) wire) with (received wire).
  destruct (len (received wire) <? 7); reflexivity.
Qed.

Lemma read_holding_registers_outcome (p : peer) (address count : Z) (st : state) :
  fst (read_holding_registers p address count st)
  = read_outcome p (unit (self st)) count.
Proof.
  unfold read_holding_registers, read_outcome.
  destruct ((count <? 1) || (count >? 125)); [reflexivity|].
  rewrite (pack_B_ok 3) by lia.
  rewrite !(pack_H_ok (Z.land _ _)) by apply land_FFFF_range.
  unfold mbind at 1 2 3. unfold M_bind at 1 2 3. unfold lift at 1 2 3.
  unfold mbind at 1. unfold M_bind at 1.
  pose proof (send_request_outcome p
    ([chr 3] ++ [chr (Z.land address 65535 / 256); chr (Z.land address 65535 `mod` 256)] ++
     [chr (Z.land count 65535 / 256); chr (Z.land count 65535 `mod` 256)]) st) as Hs.
  destruct (_send_request _ _ st) as [r st'].
  cbn [fst] in Hs. rewrite Hs by (unfold len; cbn [length app]; lia). clear Hs.
  unfold send_outcome.
  destruct (pack_B (unit (self st))) as [h4|e]; [|reflexivity].
  destruct p as [msg|msg|msg|wire]; try reflexivity.
  unfold reply_outcome.
  destruct (len (received wire) <? 7); [reflexivity|].
  destruct (drop 7 (received wire)) as [|fc rest]; [reflexivity|].
  unfold mbind, M_bind, lift, raise, mret, M_ret.
  change (getitem (fc :: rest) 0) with (Ok fc). cbv beta iota.
  destruct (negb (Z.land (ord fc) 128 =? 0)); [reflexivity|].
  destruct rest as [|bc body]; [reflexivity|].
  change (getitem (fc :: bc :: body) 1) with (Ok bc). cbv beta iota.
  unfold slice. replace (Z.to_nat (2 + ord bc - 2)) with (Z.to_nat (ord bc)) by lia.
  change (drop (Z.to_nat 2) (fc :: bc :: body)) with body.
  rewrite regs_loop_words. reflexivity.
Qed.

Lemma read_holding_registers_replies (wire : bytes) (address count : Z) (st : state) :
  1 <= count <= 125 -> 0 <= unit (self st) <= 255 ->
  fst (read_holding_registers (Replies wire) address count st)
  = reply_outcome count (received wire).
Proof.
  intros Hc Hu. rewrite read_holding_registers_outcome. unfold read_outcome, send_outcome.
  destruct (Z.ltb_spec count 1); [lia|]. destruct (Z.gtb_spec count 125); [lia|].
  cbn [orb]. rewrite pack_B_ok by lia.
  unfold reply_outcome.
  destruct (len (received wire) <? 7); reflexivity.
Qed.

Lemma reply_outcome_ok_inv (count : Z) (data : bytes) (regs : list Z) :
  reply_outcome count data = Ok regs ->
  exists b : bytes, regs = take (Z.to_nat count) (words b).
Proof.
  unfold reply_outcome.
  destruct (len data <? 7); [discriminate|].
  destruct (drop 7 data) as [|fc [|bc body]]; try discriminate.
  - destruct (negb _); discriminate.
  - destruct (negb _); [discriminate|]. intros [= <-]. eexists. reflexivity.
Qed.

Lemma read_outcome_ok_inv (p : peer) (unit count : Z) (regs : list Z) :
  read_outcome p unit count = Ok regs ->
  exists wire, p = Replies wire /\ reply_outcome count (received wire) = Ok regs.
Proof.
  unfold read_outcome, send_outcome.
  destruct ((count <? 1) || (count >? 125)); [discriminate|].
  destruct (pack_B unit); [|discriminate].
  destruct p as [msg|msg|msg|wire]; try discriminate.
  intros H. exists wire. split; [reflexivity|].
  unfold reply_outcome in *.
  destruct (len (received wire) <? 7); [discriminate|exact H].
Qed.

Lemma land_pow2_testbit (x k : Z) :
  0 <= k -> (Z.land x (2 ^ k) =? 0) = negb (Z.testbit x k).
Proof.
  intros Hk. destruct (Z.testbit x k) eqn:E; cbn [negb].
  - apply Z.eqb_neq. intros H. apply (f_equal (fun z => Z.testbit z k)) in H.
    rewrite Z.land_spec, E, Z.pow2_bits_true, Z.bits_0 in H by lia. discriminate.
  - apply Z.eqb_eq. apply Z.bits_inj'. intros n Hn.
    rewrite Z.land_spec, Z.bits_0, Z.pow2_bits_eqb by lia.
    destruct (Z.eqb_spec k n) as [->|]; [now rewrite E|]. apply andb_false_r.
Qed.

Lemma high_bit_test (b : Byte.byte) :
  negb (Z.land (ord b) 0x80 =? 0) = Z.testbit (ord b) 7.
Proof.
  change 0x80 with (2 ^ 7). rewrite land_pow2_testbit by lia. apply negb_involutive.
Qed.

Lemma length_take_words (count : Z) (n : nat) (body : bytes) :
  len (take (Z.to_nat count) (words (take n body)))
  = Z.min (Z.max 0 count) (Z.min (Z.of_nat n) (len body) / 2).
Proof.
  unfold len. rewrite length_take, length_words, length_take.
  rewrite Nat2Z.inj_min, Nat2Z.inj_div, Nat2Z.inj_min. lia.
Qed.

Lemma reply_outcome_payload (count : Z) (data : bytes) (fc bc : Byte.byte) (body : bytes) :
  drop 7 data = fc :: bc :: body -> Z.land (ord fc) 0x80 = 0 ->
  reply_outcome count data
  = Ok (take (Z.to_nat count) (words (take (Z.to_nat (ord bc)) body))).
Proof.
  intros Hd Hfc. unfold reply_outcome. rewrite Hd.
  destruct (Z.ltb_spec (len data) 7) as [Hlt|_].
  - apply (f_equal length) in Hd. rewrite length_drop in Hd.
    unfold len in Hlt. cbn [length] in Hd. lia.
  - rewrite Hfc. reflexivity.
Qed.

Lemma well_formed_inv (count : Z) (data : bytes) :
  well_formed count data = true ->
  exists fc bc body,
    drop 7 data = fc :: bc :: body /\ Z.land (ord fc) 0x80 = 0 /\
    2 * count <= ord bc /\ 2 * count <= len body.
Proof.
  unfold well_formed. destruct (drop 7 data) as [|fc [|bc body]]; try discriminate.
  intros Hwf. apply andb_prop in Hwf as [Hwf H4]. apply andb_prop in Hwf as [Hwf H3].
  apply andb_prop in Hwf as [_ H2].
  apply Z.eqb_eq in H2. apply Z.leb_le in H3, H4.
  exists fc, bc, body. repeat split; assumption.
Qed.

Lemma well_formed_length (count : Z) (data : bytes) (regs : list Z) :
  0 <= count -> well_formed count data = true ->
  reply_outcome count data = Ok regs -> len regs = count.
Proof.
  intros Hc (fc & bc & body & Hd & Hfc & Hbc & Hb)%well_formed_inv.
  rewrite (reply_outcome_payload count _ fc bc body Hd Hfc). intros [= <-].
  rewrite length_take_words. pose proof (ord_nonneg bc). rewrite Z2Nat.id by lia.
  assert (count <= Z.min (ord bc) (len body) / 2) by (apply Z.div_le_lower_bound; lia).
  lia.
Qed.

(** C3. For a count in 1..125 and a well-formed reply,
    [read_holding_registers] returns exactly [count] words, each the
    big-endian value of its two bytes, words beyond [count] being cut off.
    Whenever the payload has a function code and a byte count, the number of
    words is the number of whole byte pairs: an unpaired last byte is dropped
    and no error is raised. *)
Theorem C3_read_returns_count_words
    (wire : bytes) (address count : Z) (st : state) :
  1 <= count <= 125 -> 0 <= unit (self st) <= 255 ->
  let result := fst (read_holding_registers (Replies wire) address count st) in
  let body := drop 9 (received wire) in
  (well_formed count (received wire) = true ->
   exists regs, result = Ok regs /\ len regs = count /\
     forall i, (i < Z.to_nat count)%nat ->
       exists hi lo,
         body !! (2 * i)%nat = Some hi /\ body !! (2 * i + 1)%nat = Some lo /\
         regs !! i = Some (256 * ord hi + ord lo))
  /\ (forall fc bc,
        drop 7 (received wire) = fc :: bc :: body -> Z.land (ord fc) 0x80 = 0 ->
        exists regs, result = Ok regs /\
          len regs = Z.min count (Z.min (ord bc) (len body) / 2)).
Proof.
  intros Hc Hu result body. subst result.
  rewrite read_holding_registers_replies by assumption.
  assert (Hbody : forall fc bc b', drop 7 (received wire) = fc :: bc :: b' -> b' = body).
  { intros fc bc b' Hd. subst body.
    change 9%nat with (7 + 2)%nat. rewrite <- drop_drop, Hd. reflexivity. }
  split.
  - unfold well_formed. destruct (drop 7 (received wire)) as [|fc [|bc b']] eqn:Hd;
      try discriminate.
    rewrite (Hbody _ _ _ eq_refl) in *. clear Hbody.
    intros Hwf. apply andb_prop in Hwf as [Hwf H4]. apply andb_prop in Hwf as [Hwf H3].
    apply andb_prop in Hwf as [_ H2].
    apply Z.eqb_eq in H2. apply Z.leb_le in H3, H4.
    rewrite (reply_outcome_payload count _ fc bc body Hd H2).
    eexists. split; [reflexivity|]. split.
    + rewrite length_take_words. rewrite Z2Nat.id by lia.
      assert (2 * count <= Z.min (ord bc) (len body)) by lia.
      assert (count <= Z.min (ord bc) (len body) / 2) by (apply Z.div_le_lower_bound; lia).
      lia.
    + intros i Hi. unfold len in H4.
      destruct (lookup_lt_is_Some_2 body (2 * i)) as [hi Hhi]; [lia|].
      destruct (lookup_lt_is_Some_2 body (2 * i + 1)) as [lo Hlo]; [lia|].
      exists hi, lo. split; [exact Hhi|]. split; [exact Hlo|].
      rewrite lookup_take_lt by lia.
      apply words_lookup.
      * etransitivity; [apply lookup_take_lt; lia|exact Hhi].
      * etransitivity; [apply lookup_take_lt; lia|exact Hlo].
  - intros fc bc Hd Hfc.
    rewrite (reply_outcome_payload count _ fc bc body Hd Hfc).
    eexists. split; [reflexivity|].
    rewrite length_take_words. pose proof (ord_nonneg bc). rewrite Z2Nat.id by lia. lia.
Qed.

Lemma C3_witness :
  exists regs,
    fst (read_holding_registers (Replies wire_three_words_and_a_half) 0 2
           (mkState client0 [])) = Ok regs /\ len regs = 2.
Proof.
  destruct (C3_read_returns_count_words wire_three_words_and_a_half 0 2
              (mkState client0 []) ltac:(lia) ltac:(simpl; lia)) as [H _].
  destruct (H ltac:(reflexivity)) as (regs & Hr & Hl & _).
  exists regs. split; assumption.
Defined.

(** C8 (amended). With fewer than 7 bytes received the read fails with the
    I/O error "Incomplete response"; with exactly the 7 header bytes, with "No
    response"; when bit 7 of the first payload byte is set, with an I/O error
    carrying the payload in hexadecimal; and when that bit is clear and the
    payload has at least two bytes, the read returns words without raising. *)
Theorem C8_reply_outcomes (wire : bytes) (address count : Z) (st : state) :
  1 <= count <= 125 -> 0 <= unit (self st) <= 255 ->
  let result := fst (read_holding_registers (Replies wire) address count st) in
  let data := received wire in
  (len data < 7 -> result = Raise (IOError "Incomplete response"))
  /\ (len data = 7 -> result = Raise (IOError "No response"))
  /\ (forall fc rest,
        drop 7 data = fc :: rest -> Z.testbit (ord fc) 7 = true ->
        result = Raise (IOError ("Exception response: " +:+ hex (fc :: rest))))
  /\ (forall fc bc body,
        drop 7 data = fc :: bc :: body -> Z.testbit (ord fc) 7 = false ->
        exists regs, result = Ok regs).
Proof.
  intros Hc Hu result data. subst result data.
  rewrite read_holding_registers_replies by assumption.
  repeat split.
  - intros Hlt. unfold reply_outcome.
    destruct (Z.ltb_spec (len (received wire)) 7); [reflexivity|lia].
  - intros Heq. unfold reply_outcome. rewrite Heq. cbn [Z.ltb Z.compare Pos.compare Pos.compare_cont].
    rewrite drop_ge; [reflexivity|]. unfold len in Heq. lia.
  - intros fc rest Hd Hbit. unfold reply_outcome. rewrite Hd.
    destruct (Z.ltb_spec (len (received wire)) 7) as [Hlt|_].
    + apply (f_equal length) in Hd. rewrite length_drop in Hd.
      unfold len in Hlt. cbn [length] in Hd. lia.
    + rewrite high_bit_test, Hbit. reflexivity.
  - intros fc bc body Hd Hbit. eexists.
    apply reply_outcome_payload with (fc := fc); [exact Hd|].
    rewrite <- high_bit_test in Hbit. apply negb_false_iff in Hbit.
    apply Z.eqb_eq in Hbit. exact Hbit.
Qed.

(** Eight bytes are received, the payload is the function code 3 alone, its
    bit 7 is clear, and the read raises [IndexError]. *)
Lemma C8_counterexample :
  let data := received wire_function_code_only in
  len data = 8
  /\ drop 7 data = [Byte.x03]
  /\ Z.testbit (ord Byte.x03) 7 = false
  /\ fst (read_holding_registers (Replies wire_function_code_only) 0 1
            (mkState client0 []))
     = Raise (IndexError "index out of range").
Proof. vm_compute. repeat split; reflexivity. Qed.

Lemma C8_witness :
  fst (read_holding_registers (Replies wire_truncated) 0 1 (mkState client0 []))
  = Raise (IOError "Incomplete response")
  /\ fst (read_holding_registers (Replies wire_header_only) 0 1 (mkState client0 []))
     = Raise (IOError "No response")
  /\ fst (read_holding_registers (Replies wire_exception) 0 1 (mkState client0 []))
     = Raise (IOError "Exception response: 8302")
  /\ exists regs,
       fst (read_holding_registers (Replies wire_three_words_and_a_half) 0 1
              (mkState client0 [])) = Ok regs.
Proof.
  assert (Hc : 1 <= 1 <= 125) by lia.
  assert (Hu : 0 <= unit (self (mkState client0 [])) <= 255) by (simpl; lia).
  split; [|split; [|split]].
  - apply (C8_reply_outcomes wire_truncated 0 1 _ Hc Hu). vm_compute. reflexivity.
  - apply (C8_reply_outcomes wire_header_only 0 1 _ Hc Hu). reflexivity.
  - apply (proj1 (proj2 (proj2 (C8_reply_outcomes wire_exception 0 1 _ Hc Hu)))
             Byte.x83 [Byte.x02]); reflexivity.
  - apply (proj2 (proj2 (proj2 (C8_reply_outcomes wire_three_words_and_a_half 0 1 _ Hc Hu)))
             Byte.x03 Byte.x07
             (to_bytes [0; 215; 78; 33; 4; 176; 50])); reflexivity.
Defined.

(** C9. With a count outside 1..125, [read_holding_registers] raises
    [ValueError] and leaves the state as it was: nothing is added to the
    network log (no connection, no bytes sent) and [_tid] keeps its value. *)
Theorem C9_count_out_of_range_no_io
    (p : peer) (address count : Z) (st : state) :
  count < 1 \/ 125 < count ->
  let out := read_holding_registers p address count st in
  fst out = Raise (ValueError "count must be 1..125")
  /\ log (snd out) = log st
  /\ _tid (self (snd out)) = _tid (self st)
  /\ snd out = st.
Proof.
  intros Hc out. subst out. unfold read_holding_registers.
  assert (E : (count <? 1) || (count >? 125) = true).
  { destruct Hc as [Hc|Hc].
    - apply orb_true_iff. left. now apply Z.ltb_lt.
    - apply orb_true_iff. right. apply Z.gtb_lt. exact Hc. }
  rewrite E. repeat split.
Qed.

Lemma C9_witness :
  fst (read_holding_registers (Replies wire_three_words_and_a_half) 0 0
         (mkState client0 [])) = Raise (ValueError "count must be 1..125")
  /\ log (snd (read_holding_registers (Replies wire_three_words_and_a_half) 0 126
                 (mkState client0 []))) = [].
Proof.
  split.
  - apply (C9_count_out_of_range_no_io _ 0 0 (mkState client0 [])). lia.
  - apply (C9_count_out_of_range_no_io _ 0 126 (mkState client0 [])). lia.
Defined.

End ClientFacts.

(** ** The coordinator and the decoder *)

Section SensorFacts.

Import ModbusClient Sensor Samples.

Lemma dict_of_list_snoc (values : list Z) (v : Z) :
  dict_of_list (values ++ [v]) = <[len values := v]> (dict_of_list values).
Proof.
  unfold dict_of_list, enumerate. rewrite imap_app, foldl_app. cbn.
  rewrite Nat.add_0_r. reflexivity.
Qed.

Lemma dict_of_list_lookup (values : list Z) (k : Z) :
  dict_of_list values !! k = if decide (0 <= k) then values !! Z.to_nat k else None.
Proof.
  induction values as [|v values IH] using rev_ind.
  - cbn. rewrite lookup_empty. now destruct (decide (0 <= k)).
  - rewrite dict_of_list_snoc, lookup_insert. unfold len.
    destruct (decide (Z.of_nat (length values) = k)) as [<-|Hne].
    + rewrite decide_True by lia. rewrite Nat2Z.id.
      rewrite lookup_app_r by lia. now rewrite Nat.sub_diag.
    + rewrite IH. destruct (decide (0 <= k)) as [Hk|]; [|reflexivity].
      destruct (decide (Z.to_nat k < length values)%nat) as [Hlt|Hge].
      * now rewrite lookup_app_l by lia.
      * rewrite (lookup_ge_None_2 values) by lia.
        rewrite lookup_ge_None_2; [reflexivity|]. rewrite length_app. cbn. lia.
Qed.

Lemma dict_of_list_dom (values : list Z) :
  dom (dict_of_list values) = list_to_set (seqZ 0 (len values)).
Proof.
  apply set_eq. intros k. rewrite elem_of_dom, dict_of_list_lookup, elem_of_list_to_set, elem_of_seqZ.
  unfold len. destruct (decide (0 <= k)) as [Hk|Hk].
  - rewrite lookup_lt_is_Some. lia.
  - split; [intros [? ?]; discriminate|lia].
Qed.

Lemma fetch_data_outcome (p : ModbusClient.peer) (c : TimNetCoordinator) :
  _fetch_data p c
  = match read_outcome p (unit_id c) 22 with
    | Ok values => Ok (dict_of_list values)
    | Raise e => Raise e
    end.
Proof.
  unfold _fetch_data, _fetch_data_io.
  pose proof (read_holding_registers_outcome p 0 22
    (ModbusClient.mkState
       (ModbusClient.__init__ (host c) (port c) ModbusClient.default_timeout (unit_id c))
       [])) as H.
  destruct (ModbusClient.read_holding_registers _ _ _ _) as [r st].
  cbn [fst] in *. rewrite H. reflexivity.
Qed.

Lemma update_failure (p : ModbusClient.peer) (c : TimNetCoordinator) :
  poll_failed_prop p c ->
  _async_update_data p c
  = (Ok (_last_valid_data c),
     mkCoord (host c) (port c) (unit_id c) (_last_valid_data c) false (data c)).
Proof.
  intros Hf. unfold _async_update_data, try_except, async_add_executor_job.
  unfold mbind, M_bind, mret, M_ret, get, lift, set_connection_ok, modify.
  destruct Hf as [[e ->]| ->]; reflexivity.
Qed.

Lemma update_success (p : ModbusClient.peer) (c : TimNetCoordinator) (d : gmap Z Z) :
  _fetch_data p c = Ok d -> d <> ∅ ->
  _async_update_data p c
  = (Ok d, mkCoord (host c) (port c) (unit_id c) d true (data c)).
Proof.
  intros Hf Hd. unfold _async_update_data, try_except, async_add_executor_job.
  unfold mbind, M_bind, mret, M_ret, get, lift, set_connection_ok, set_last_valid_data, modify.
  rewrite Hf. unfold dict_bool. rewrite bool_decide_eq_false_2 by exact Hd. reflexivity.
Qed.

Lemma poll_failed_true (p : ModbusClient.peer) (c : TimNetCoordinator) :
  poll_failed p c = true <-> poll_failed_prop p c.
Proof.
  unfold poll_failed, poll_failed_prop, dict_bool. destruct (_fetch_data p c) as [d|e].
  - rewrite negb_involutive, bool_decide_eq_true. split.
    + intros ->. right. reflexivity.
    + intros [[e He]|[= ->]]; [discriminate|reflexivity].
  - split; [|reflexivity]. intros _. left. exists e. reflexivity.
Qed.

Lemma poll_failed_false (p : ModbusClient.peer) (c : TimNetCoordinator) :
  poll_failed p c = false <-> exists d, _fetch_data p c = Ok d /\ d <> ∅.
Proof.
  unfold poll_failed, dict_bool. destruct (_fetch_data p c) as [d|e].
  - rewrite negb_false_iff, negb_true_iff, bool_decide_eq_false. split.
    + intros Hne. exists d. split; [reflexivity|exact Hne].
    + intros (d' & [= <-] & Hne). exact Hne.
  - split; [discriminate|]. intros (d & Hd & _). discriminate.
Qed.

Lemma refresh_failure (p : ModbusClient.peer) (c : TimNetCoordinator) :
  poll_failed p c = true ->
  async_refresh p c
  = mkCoord (host c) (port c) (unit_id c) (_last_valid_data c) false
            (Some (_last_valid_data c)).
Proof.
  intros E%poll_failed_true. unfold async_refresh. rewrite (update_failure _ _ E).
  reflexivity.
Qed.

Lemma refresh_success (p : ModbusClient.peer) (c : TimNetCoordinator) (d : gmap Z Z) :
  _fetch_data p c = Ok d -> d <> ∅ ->
  async_refresh p c = mkCoord (host c) (port c) (unit_id c) d true (Some d).
Proof.
  intros Hd Hne. unfold async_refresh. rewrite (update_success _ _ _ Hd Hne). reflexivity.
Qed.

Lemma dict_bool_true (d : gmap Z Z) : dict_bool d = true <-> d <> ∅.
Proof. unfold dict_bool. now rewrite negb_true_iff, bool_decide_eq_false. Qed.

(** C1. A poll tick never raises.  When the fetch raises any exception, or
    succeeds with an empty reading, the tick sets [connection_ok] to false,
    returns the previous [_last_valid_data] and leaves it unchanged. *)
Theorem C1_failed_poll_keeps_last_reading
    (p : ModbusClient.peer) (c : TimNetCoordinator) :
  let out := _async_update_data p c in
  is_ok (fst out) = true
  /\ (poll_failed p c = true ->
      connection_ok (snd out) = false
      /\ fst out = Ok (_last_valid_data c)
      /\ _last_valid_data (snd out) = _last_valid_data c).
Proof.
  intros out. subst out. split.
  - destruct (poll_failed p c) eqn:E.
    + apply poll_failed_true in E. rewrite (update_failure _ _ E). reflexivity.
    + apply poll_failed_false in E as (d & Hd & Hne).
      rewrite (update_success _ _ _ Hd Hne). reflexivity.
  - intros E%poll_failed_true. rewrite (update_failure _ _ E). repeat split.
Qed.

Lemma C1_witness :
  (let out := _async_update_data (ModbusClient.ConnectFails "timed out") coordinator_stale in
   connection_ok (snd out) = false /\ fst out = Ok {[ 0 := 215 ]})
  /\ (let out := _async_update_data (ModbusClient.Replies wire_no_words) coordinator_stale in
      connection_ok (snd out) = false /\ fst out = Ok {[ 0 := 215 ]}).
Proof.
  split.
  - destruct (C1_failed_poll_keeps_last_reading
                (ModbusClient.ConnectFails "timed out") coordinator_stale) as [_ H].
    destruct (H ltac:(vm_compute; reflexivity)) as (H1 & H2 & _).
    split; [exact H1|exact H2].
  - destruct (C1_failed_poll_keeps_last_reading
                (ModbusClient.Replies wire_no_words) coordinator_stale) as [_ H].
    destruct (H ltac:(vm_compute; reflexivity)) as (H1 & H2 & _).
    split; [exact H1|exact H2].
Defined.

(** C4. [is_on] of the connection sensor holds exactly when [connection_ok]
    holds and [coordinator.data] is a non-empty reading.  The sensor is always
    available.  After a failed poll it is off, whatever the cache holds; after
    any poll, [connection_ok] and [is_on] hold exactly when that poll
    succeeded, and [data] is the cached reading. *)
Theorem C4_connectivity_indicator (c : TimNetCoordinator) :
  (is_on c = true <-> connection_ok c = true /\ exists d, data c = Some d /\ d <> ∅)
  /\ available c = true
  /\ (forall p, poll_failed p c = true -> is_on (async_refresh p c) = false)
  /\ (forall p,
        let c' := async_refresh p c in
        (connection_ok c' = true <-> poll_failed p c = false)
        /\ data c' = Some (_last_valid_data c')
        /\ (is_on c' = true <-> poll_failed p c = false)).
Proof.
  split; [|split; [reflexivity|split]].
  - unfold is_on, data_bool. rewrite andb_true_iff. destruct (data c) as [d|].
    + rewrite dict_bool_true. split.
      * intros [H1 H2]. split; [exact H1|]. exists d. split; [reflexivity|exact H2].
      * intros [H1 (d' & [= <-] & H2)]. split; assumption.
    + split; [intros [_ ?]; discriminate|]. intros [_ (d & Hd & _)]. discriminate.
  - intros p E. rewrite (refresh_failure _ _ E). reflexivity.
  - intros p c'. subst c'. destruct (poll_failed p c) eqn:E.
    + rewrite (refresh_failure _ _ E). cbn. repeat split; discriminate.
    + apply poll_failed_false in E as (d & Hd & Hne).
      rewrite (refresh_success _ _ _ Hd Hne). unfold is_on. cbn.
      apply dict_bool_true in Hne. rewrite Hne. repeat split.
Qed.

Lemma C4_witness :
  _last_valid_data coordinator_stale = {[ 0 := 215 ]}
  /\ is_on coordinator_stale = true
  /\ is_on (async_refresh (ModbusClient.ConnectFails "timed out") coordinator_stale) = false
  /\ is_on (async_refresh (ModbusClient.Replies wire_one_word) coordinator0) = true.
Proof.
  split; [reflexivity|]. split; [|split].
  - destruct (C4_connectivity_indicator coordinator_stale) as (H & _).
    apply H. split; [reflexivity|].
    exists {[ 0 := 215 ]}. split; [reflexivity|]. apply insert_non_empty.
  - destruct (C4_connectivity_indicator coordinator_stale) as (_ & _ & H & _).
    apply H. vm_compute. reflexivity.
  - destruct (C4_connectivity_indicator coordinator0) as (_ & _ & _ & H).
    apply (H (ModbusClient.Replies wire_one_word)). vm_compute. reflexivity.
Defined.

(** C5 (amended). After a successful poll the keys of the cached reading are
    the contiguous range [0 .. n-1] for some [n] between 1 and 22, every value
    is a uint16 word, and [n] is 22 when the reply carries at least the 22
    words asked for. *)
Theorem C5_cached_reading_is_contiguous
    (p : ModbusClient.peer) (c : TimNetCoordinator) :
  poll_failed p c = false ->
  let c' := async_refresh p c in
  connection_ok c' = true
  /\ exists n,
       1 <= n <= 22
       /\ dom (_last_valid_data c') = list_to_set (seqZ 0 n)
       /\ (forall k v, _last_valid_data c' !! k = Some v -> 0 <= v < 65536)
       /\ (forall wire,
             p = ModbusClient.Replies wire -> well_formed 22 (received wire) = true ->
             n = 22).
Proof.
  intros (d & Hd & Hne)%poll_failed_false c'. subst c'.
  rewrite (refresh_success _ _ _ Hd Hne). cbn [connection_ok _last_valid_data].
  split; [reflexivity|].
  rewrite fetch_data_outcome in Hd.
  destruct (read_outcome p (unit_id c) 22) as [values|e] eqn:Hr; [|discriminate].
  injection Hd as <-.
  apply read_outcome_ok_inv in Hr as (wire & -> & Hr).
  pose proof Hr as (b & Hb)%reply_outcome_ok_inv.
  exists (len values). repeat split.
  - destruct values; [now contradict Hne|]. unfold len. cbn. lia.
  - rewrite Hb. unfold len. rewrite length_take. lia.
  - apply dict_of_list_dom.
  - rewrite dict_of_list_lookup in H. destruct (decide (0 <= k)); [|discriminate].
    apply list_elem_of_lookup_2 in H. rewrite Hb in H.
    apply (subseteq_take _ _ _) in H. apply words_bound in H. lia.
  - rewrite dict_of_list_lookup in H. destruct (decide (0 <= k)); [|discriminate].
    apply list_elem_of_lookup_2 in H. rewrite Hb in H.
    apply (subseteq_take _ _ _) in H. apply words_bound in H. lia.
  - intros wire' [= <-] Hwf. apply (well_formed_length 22 _ _ ltac:(lia) Hwf Hr).
Qed.

(** A reply with one register word makes the poll succeed and caches a reading
    with the single key 0: address 21 is missing. *)
Lemma C5_counterexample :
  let c' := async_refresh (ModbusClient.Replies wire_one_word) coordinator0 in
  poll_failed (ModbusClient.Replies wire_one_word) coordinator0 = false
  /\ connection_ok c' = true
  /\ _last_valid_data c' = {[ 0 := 215 ]}
  /\ _last_valid_data c' !! 21 = None
  /\ dom (_last_valid_data c') <> list_to_set (seqZ 0 22).
Proof.
  assert (E : async_refresh (ModbusClient.Replies wire_one_word) coordinator0
              = mkCoord "10.0.0.11" 502 1 {[ 0 := 215 ]} true (Some {[ 0 := 215 ]})).
  { vm_compute. reflexivity. }
  cbv zeta. rewrite E. cbn [connection_ok _last_valid_data].
  split; [vm_compute; reflexivity|]. split; [reflexivity|]. split; [reflexivity|].
  split; [reflexivity|].
  intros H. assert (H21 : (21 : Z) ∈ dom ({[ 0 := 215 ]} : gmap Z Z)).
  { rewrite H. apply elem_of_list_to_set, elem_of_seqZ. lia. }
  rewrite dom_singleton_L in H21. apply elem_of_singleton in H21. discriminate.
Qed.

Lemma C5_witness :
  (exists n, 1 <= n <= 22 /\
     dom (_last_valid_data (async_refresh (ModbusClient.Replies wire_one_word) coordinator0))
     = list_to_set (seqZ 0 n))
  /\ dom (_last_valid_data (async_refresh (ModbusClient.Replies wire_full_block) coordinator0))
     = list_to_set (seqZ 0 22).
Proof.
  split.
  - destruct (C5_cached_reading_is_contiguous (ModbusClient.Replies wire_one_word)
                coordinator0 ltac:(vm_compute; reflexivity)) as (_ & n & Hn & Hd & _).
    exists n. split; [exact Hn|exact Hd].
  - destruct (C5_cached_reading_is_contiguous (ModbusClient.Replies wire_full_block)
                coordinator0 ltac:(vm_compute; reflexivity)) as (_ & n & Hn & Hd & _ & Hfull).
    rewrite (Hfull wire_full_block eq_refl ltac:(vm_compute; reflexivity)) in Hd. exact Hd.
Defined.

Lemma temperature_register (rd : reg_def) :
  rd ∈ REGISTER_DEFINITIONS -> key rd = "TT" \/ key rd = "TT2" ->
  divider rd = Some 10.
Proof.
  unfold REGISTER_DEFINITIONS. intros Hin Hk.
  repeat (apply elem_of_cons in Hin as [->|Hin]; [cbn in *; first [reflexivity | now destruct Hk]|]).
  now apply elem_of_nil in Hin.
Qed.

Lemma decode_temperature (rd : reg_def) (raw : Z) :
  key rd = "TT" \/ key rd = "TT2" ->
  decode rd raw
  = if raw =? 20000 then Ok (VStr "HI")
    else if (raw =? -20000) || (raw =? 45536) then Ok (VStr "LO")
    else if raw =? 20001 then Ok (VStr "---")
    else if raw =? 20002 then Ok (VStr "Neaktivní")
    else match divider rd with
         | Some d => round_div raw d
         | None => Ok (VInt raw)
         end.
Proof. intros [Hk|Hk]; unfold decode; rewrite Hk; reflexivity. Qed.

(** C2. At the temperature registers (keys TT and TT2) a raw uint16 word
    decodes as follows: 20000 is "HI", 45536 is "LO", 20001 is the
    sensor-absent marker "---", 20002 is the sensor-inactive marker, and every
    other word is [round(raw / 10, 1)]. *)
Theorem C2_temperature_decoding (rd : reg_def) (raw : Z) :
  rd ∈ REGISTER_DEFINITIONS -> key rd = "TT" \/ key rd = "TT2" ->
  0 <= raw < 65536 ->
  (raw = 20000 -> decode rd raw = Ok (VStr "HI"))
  /\ (raw = 45536 -> decode rd raw = Ok (VStr "LO"))
  /\ (raw = 20001 -> decode rd raw = Ok (VStr "---"))
  /\ (raw = 20002 -> decode rd raw = Ok (VStr "Neaktivní"))
  /\ (raw <> 20000 -> raw <> 45536 -> raw <> 20001 -> raw <> 20002 ->
      decode rd raw = Ok (VFloat (round1 (tenth raw)))).
Proof.
  intros Hin Hk Hraw. rewrite (decode_temperature rd raw Hk).
  rewrite (temperature_register rd Hin Hk).
  repeat split.
  - intros ->. reflexivity.
  - intros ->. reflexivity.
  - intros ->. reflexivity.
  - intros ->. reflexivity.
  - intros H1 H2 H3 H4.
    destruct (Z.eqb_spec raw 20000); [contradiction|].
    destruct (Z.eqb_spec raw (-20000)); [lia|].
    destruct (Z.eqb_spec raw 45536); [contradiction|].
    destruct (Z.eqb_spec raw 20001); [contradiction|].
    destruct (Z.eqb_spec raw 20002); [contradiction|].
    reflexivity.
Qed.

Lemma C2_witness :
  decode reg_TT 20000 = Ok (VStr "HI")
  /\ decode reg_TT 45536 = Ok (VStr "LO")
  /\ decode reg_TT 215 = Ok (VFloat (S754_finite false 6051711999279104 (-48))).
Proof.
  assert (Hin : reg_TT ∈ REGISTER_DEFINITIONS) by (apply elem_of_cons; left; reflexivity).
  assert (Hk : key reg_TT = "TT" \/ key reg_TT = "TT2") by (left; reflexivity).
  split; [|split].
  - apply (C2_temperature_decoding reg_TT 20000 Hin Hk); [lia|reflexivity].
  - apply (C2_temperature_decoding reg_TT 45536 Hin Hk); [lia|reflexivity].
  - apply (C2_temperature_decoding reg_TT 215 Hin Hk); lia.
Defined.

Lemma decode_enum (rd : reg_def) (tbl : gmap Z string) (raw : Z) :
  (key rd, tbl) ∈ ENUM_TABLES ->
  decode rd raw
  = Ok (get_or tbl raw
          (if (key rd =? "STAT")%string then VStr (unknown_status raw) else VInt raw)).
Proof.
  unfold ENUM_TABLES. intros Hin.
  repeat (apply elem_of_cons in Hin as [[= Hk ->]|Hin];
          [unfold decode; rewrite Hk; reflexivity|]).
  now apply elem_of_nil in Hin.
Qed.

(** C6 (amended). Decoding an enumerated register never raises.  A word found
    in the table of the register decodes to its label.  A word absent from the
    table decodes to the word itself for REZIM, PALIVO, PRILOZ, BARVA, BEEP,
    RELE1 and RELE2, and to the text "Neznámý (raw)" for STAT. *)
Theorem C6_unmapped_enum_fallback (rd : reg_def) (tbl : gmap Z string) (raw : Z) :
  (key rd, tbl) ∈ ENUM_TABLES ->
  is_ok (decode rd raw) = true
  /\ (forall s, tbl !! raw = Some s -> decode rd raw = Ok (VStr s))
  /\ (tbl !! raw = None ->
      (key rd <> "STAT" -> decode rd raw = Ok (VInt raw))
      /\ (key rd = "STAT" -> decode rd raw = Ok (VStr (unknown_status raw)))).
Proof.
  intros Hin. rewrite (decode_enum rd tbl raw Hin). unfold get_or.
  split; [reflexivity|]. split.
  - intros s ->. reflexivity.
  - intros ->. split.
    + intros Hk. apply String.eqb_neq in Hk. rewrite Hk. reflexivity.
    + intros Hk. apply String.eqb_eq in Hk. rewrite Hk. reflexivity.
Qed.

(** The word 9 is not in the status table, and STAT decodes it to a text, not
    to the number 9. *)
Lemma C6_counterexample :
  reg_STAT ∈ REGISTER_DEFINITIONS
  /\ (key reg_STAT, STATUS_MAP) ∈ ENUM_TABLES
  /\ STATUS_MAP !! 9 = None
  /\ decode reg_STAT 9 = Ok (VStr "Neznámý (9)")
  /\ decode reg_STAT 9 <> Ok (VInt 9).
Proof.
  split; [do 13 (apply elem_of_cons; right); apply elem_of_cons; left; reflexivity|].
  split; [apply elem_of_cons; left; reflexivity|].
  split; [reflexivity|]. split; [reflexivity|]. discriminate.
Qed.

Lemma C6_witness :
  decode (reg_of_key "REZIM") 9 = Ok (VInt 9)
  /\ decode (reg_of_key "STAT") 9 = Ok (VStr "Neznámý (9)")
  /\ decode (reg_of_key "BEEP") 15 = Ok (VStr "Zapnuto").
Proof.
  split; [|split].
  - apply (C6_unmapped_enum_fallback (reg_of_key "REZIM") MODE_MAP 9).
    + apply elem_of_cons; right; apply elem_of_cons; left; reflexivity.
    + reflexivity.
    + discriminate.
  - apply (C6_unmapped_enum_fallback (reg_of_key "STAT") STATUS_MAP 9).
    + apply elem_of_cons; left; reflexivity.
    + reflexivity.
    + reflexivity.
  - apply (C6_unmapped_enum_fallback (reg_of_key "BEEP") BEEP_MAP 15).
    + do 5 (apply elem_of_cons; right). apply elem_of_cons; left; reflexivity.
    + reflexivity.
Defined.

Lemma decode_fault (rd : reg_def) (raw : Z) :
  key rd = "PORUCHA" ->
  decode rd raw
  = if raw =? 0 then Ok (VStr "Bez poruchy")
    else match fault_names raw with
         | [] => Ok (VStr (unknown_fault raw))
         | names => Ok (VStr (join ", " names))
         end.
Proof.
  intros Hk. unfold decode. rewrite Hk. cbv beta iota zeta.
  change (("PORUCHA" =? "TT")%string) with false.
  cbn [String.eqb Ascii.eqb Bool.eqb orb].
  destruct (raw =? 0); [reflexivity|].
  assert (H0 : Z.testbit raw 0 = negb (Z.land raw 1 =? 0)).
  { pose proof (land_pow2_testbit raw 0 ltac:(lia)) as H. change (2 ^ 0) with 1 in H.
    now rewrite H, negb_involutive. }
  assert (H1 : Z.testbit raw 1 = negb (Z.land raw 2 =? 0)).
  { pose proof (land_pow2_testbit raw 1 ltac:(lia)) as H. change (2 ^ 1) with 2 in H.
    now rewrite H, negb_involutive. }
  assert (H3 : Z.testbit raw 3 = negb (Z.land raw 8 =? 0)).
  { pose proof (land_pow2_testbit raw 3 ltac:(lia)) as H. change (2 ^ 3) with 8 in H.
    now rewrite H, negb_involutive. }
  unfold fault_names. rewrite H0, H1, H3.
  destruct (Z.land raw 1 =? 0), (Z.land raw 2 =? 0), (Z.land raw 8 =? 0); reflexivity.
Qed.

(** C7. At the fault register (key PORUCHA): 0 decodes to "Bez poruchy"; a
    non-zero word with some of the bits 0, 1, 3 set decodes to the names of the
    set bits, T1 before T2 before "Dvířka", joined by a comma and a space; a
    non-zero word with none of these bits set decodes to "Neznámá (raw)". *)
Theorem C7_fault_flags (rd : reg_def) (raw : Z) :
  key rd = "PORUCHA" ->
  (raw = 0 -> decode rd raw = Ok (VStr "Bez poruchy"))
  /\ (raw <> 0 -> fault_names raw <> [] ->
      decode rd raw = Ok (VStr (join ", " (fault_names raw))))
  /\ (raw <> 0 ->
      Z.testbit raw 0 = false -> Z.testbit raw 1 = false -> Z.testbit raw 3 = false ->
      decode rd raw = Ok (VStr (unknown_fault raw)))
  /\ decode rd 1 = Ok (VStr "T1")
  /\ decode rd 2 = Ok (VStr "T2")
  /\ decode rd 8 = Ok (VStr "Dvířka")
  /\ decode rd 3 = Ok (VStr "T1, T2")
  /\ decode rd 9 = Ok (VStr "T1, Dvířka")
  /\ decode rd 10 = Ok (VStr "T2, Dvířka")
  /\ decode rd 11 = Ok (VStr "T1, T2, Dvířka").
Proof.
  intros Hk. rewrite !(decode_fault rd _ Hk). repeat split.
  - intros ->. reflexivity.
  - intros Hz Hn. apply Z.eqb_neq in Hz. rewrite Hz.
    destruct (fault_names raw); [contradiction|reflexivity].
  - intros Hz H0 H1 H3. apply Z.eqb_neq in Hz. rewrite Hz.
    unfold fault_names. rewrite H0, H1, H3. reflexivity.
Qed.

Lemma C7_witness :
  decode (reg_of_key "PORUCHA") 0 = Ok (VStr "Bez poruchy")
  /\ decode (reg_of_key "PORUCHA") 13 = Ok (VStr "T1, Dvířka")
  /\ decode (reg_of_key "PORUCHA") 4 = Ok (VStr "Neznámá (4)").
Proof.
  split; [|split].
  - destruct (C7_fault_flags (reg_of_key "PORUCHA") 0 eq_refl) as (H & _).
    apply H. reflexivity.
  - destruct (C7_fault_flags (reg_of_key "PORUCHA") 13 eq_refl) as (_ & H & _).
    apply H; [lia|discriminate].
  - destruct (C7_fault_flags (reg_of_key "PORUCHA") 4 eq_refl) as (_ & _ & H & _).
    apply H; [lia|reflexivity..].
Defined.

Lemma level_label (k : Z) : default "Neznámé" (level_map !! k) ∈ LEVEL_LABELS.
Proof.
  unfold level_map, LEVEL_LABELS.
  repeat (rewrite lookup_insert; case_decide; [cbn; set_solver|]).
  rewrite lookup_singleton. case_decide; cbn; set_solver.
Qed.

Lemma decode_sds (rd : reg_def) (raw : Z) :
  key rd = "SDS" -> raw <> 255 ->
  decode rd raw
  = Ok (VStr (default "Neznámé" (level_map !! (raw / 10)) +:+ " " +:+
              (if raw mod 10 =? 1 then "(Aktivní)" else "(Neaktivní)"))).
Proof.
  intros Hk Hr. unfold decode. rewrite Hk. apply Z.eqb_neq in Hr. cbv beta iota zeta.
  change (("SDS" =? "TT")%string) with false.
  cbn [String.eqb Ascii.eqb Bool.eqb orb]. rewrite Hr. reflexivity.
Qed.

(** C10. At the sensitivity register (key SDS), for a raw word other than 255,
    the label ends with "(Aktivní)" exactly when [raw mod 10 = 1], and with
    "(Neaktivní)" exactly when it is not. *)
Theorem C10_sds_active_marker (rd : reg_def) (raw : Z) :
  key rd = "SDS" -> raw <> 255 ->
  exists label,
    decode rd raw = Ok (VStr label)
    /\ (endswith label "(Aktivní)" = true <-> raw mod 10 = 1)
    /\ (endswith label "(Neaktivní)" = true <-> raw mod 10 <> 1).
Proof.
  intros Hk Hr. rewrite (decode_sds rd raw Hk Hr). eexists. split; [reflexivity|].
  pose proof (level_label (raw / 10)) as Hl.
  destruct (Z.eqb_spec (raw mod 10) 1) as [He|Hne];
    unfold LEVEL_LABELS in Hl;
    repeat (apply elem_of_cons in Hl as [->|Hl];
            [split; split; first [reflexivity | contradiction | discriminate
                                 | (intros; assumption) | (intros _; assumption)]|]);
    now apply elem_of_nil in Hl.
Qed.

Lemma C10_witness :
  (exists label, decode (reg_of_key "SDS") 31 = Ok (VStr label)
                 /\ endswith label "(Aktivní)" = true)
  /\ (exists label, decode (reg_of_key "SDS") 30 = Ok (VStr label)
                    /\ endswith label "(Neaktivní)" = true).
Proof.
  split.
  - destruct (C10_sds_active_marker (reg_of_key "SDS") 31 eq_refl ltac:(lia))
      as (label & Hd & Ha & _).
    exists label. split; [exact Hd|]. apply Ha. reflexivity.
  - destruct (C10_sds_active_marker (reg_of_key "SDS") 30 eq_refl ltac:(lia))
      as (label & Hd & _ & Hn).
    exists label. split; [exact Hd|]. apply Hn. discriminate.
Defined.

(** The sample block [215, 20001, 1200, 50, 0, ...]: T1 is 21.5 degrees, the
    combustion time is 20.0 minutes, the flap is at 50 percent and the door is
    closed. *)
Example decoded_sample_block :
  let c := async_refresh (Replies wire_full_block) coordinator0 in
  native_value c (TimNetSensor__init__ reg_TT)
  = Ok (VFloat (S754_finite false 6051711999279104 (-48)))
  /\ (exists rd, REGISTER_DEFINITIONS !! 2%nat = Some rd /\
       native_value c (TimNetSensor__init__ rd)
       = Ok (VFloat (S754_finite false 5629499534213120 (-48))))
  /\ (exists rd, REGISTER_DEFINITIONS !! 3%nat = Some rd /\
       native_value c (TimNetSensor__init__ rd) = Ok (VInt 50))
  /\ door_is_on c = Some false
  /\ is_on c = true.
Proof.
  cbv zeta. split; [vm_compute; reflexivity|].
  split; [eexists; split; [reflexivity|vm_compute; reflexivity]|].
  split; [eexists; split; [reflexivity|vm_compute; reflexivity]|].
  split; vm_compute; reflexivity.
Qed.

End SensorFacts.

(** ** The client over several reads and on the wire *)

Section ClientRuns.

Import ModbusClient Samples ClientVocabulary.

Lemma land_FFFF_mod (x : Z) : Z.land x 0xFFFF = x mod 65536.
Proof. change 0xFFFF with (Z.ones 16). now rewrite Z.land_ones by lia. Qed.

Lemma send_request_state (p : peer) (pdu : bytes) (st : state) :
  len pdu + 1 <= 65535 ->
  snd (_send_request p pdu st)
  = let t := succ_tid (_tid (self st)) in
    mkState (with_tid (self st) t)
      (log st ++
       match pack_B (unit (self st)) with
       | Raise _ => []
       | Ok u =>
           exchange_events (self st) p
             ((chr <$> [t / 256; t mod 256; 0; 0;
                        (len pdu + 1) / 256; (len pdu + 1) mod 256])
              ++ u ++ pdu)
       end).
Proof.
  intros Hl. unfold _send_request, _next_tid, succ_tid.
  unfold mbind, M_bind, mret, M_ret, get, set_tid, modify, lift.
  cbn [self log _tid unit host port timeout].
  rewrite land_FFFF_mod.
  assert (Ht : 0 <= (_tid (self st) + 1) mod 65536 <= 65535).
  { pose proof (Z.mod_pos_bound (_tid (self st) + 1) 65536 ltac:(lia)). lia. }
  rewrite (pack_H_ok _ Ht).
  rewrite (pack_H_ok 0) by lia.
  rewrite (pack_H_ok (len pdu + 1)) by (unfold len in *; lia).
  cbv zeta. unfold with_tid.
  destruct (pack_B (unit (self st))) as [h4|e]; [|cbn; now rewrite app_nil_r].
  unfold with_connection, finally, sendall, recv, emit, modify, raise,
    mbind, M_bind, mret, M_ret, get, exchange_events.
  cbn [self log host port timeout unit _tid].
  destruct p as [msg|msg|msg|wire]; cbn [fst snd self log].
  - reflexivity.
  - rewrite <- !app_assoc. reflexivity.
  - rewrite <- !app_assoc. reflexivity.
  - destruct (len (take (Z.to_nat 4096) wire) <? 7); cbn [snd self log];
      rewrite <- !app_assoc; reflexivity.
Qed.

Lemma read_tail_state (count : Z) (resp : bytes) (s : state) :
  snd (match resp with
       | [] => raise (IOError "No response")
       | _ =>
           fc ← lift (getitem resp 0);
           if negb (Z.land (ord fc) 0x80 =? 0) then
             raise (IOError ("Exception response: " +:+ hex resp))
           else
             byte_count ← lift (getitem resp 1);
             let regs_bytes := slice resp 2 (2 + ord byte_count) in
             regs ← lift (regs_loop regs_bytes);
             mret (take (Z.to_nat count) regs)
       end s) = s.
Proof.
  destruct resp as [|fc rest]; [reflexivity|].
  unfold mbind, M_bind, lift, raise, mret, M_ret.
  change (getitem (fc :: rest) 0) with (Ok fc). cbv beta iota.
  destruct (negb _); [reflexivity|].
  destruct (getitem (fc :: rest) 1) as [bc|e]; [|reflexivity].
  cbv zeta. destruct (regs_loop _); reflexivity.
Qed.

Lemma read_holding_registers_state (p : peer) (address count : Z) (st : state) :
  1 <= count <= 125 ->
  snd (read_holding_registers p address count st)
  = let t := succ_tid (_tid (self st)) in
    mkState (with_tid (self st) t)
      (log st ++
       if (0 <=? unit (self st)) && (unit (self st) <=? 255) then
         exchange_events (self st) p (request_adu t (unit (self st)) address count)
       else []).
Proof.
  intros Hc. unfold read_holding_registers.
  destruct (Z.ltb_spec count 1); [lia|]. destruct (Z.gtb_spec count 125); [lia|].
  cbn [orb].
  rewrite (pack_B_ok 3) by lia.
  rewrite !land_FFFF_mod.
  rewrite !(pack_H_ok (_ mod 65536))
    by (match goal with |- context [?x mod 65536] =>
          pose proof (Z.mod_pos_bound x 65536 ltac:(lia)) end; lia).
  unfold mbind at 1 2 3. unfold M_bind at 1 2 3. unfold lift at 1 2 3.
  unfold mbind at 1. unfold M_bind at 1.
  pose proof (send_request_state p
    ([chr 3] ++ [chr (address mod 65536 / 256); chr ((address mod 65536) mod 256)] ++
     [chr (count mod 65536 / 256); chr ((count mod 65536) mod 256)]) st) as Hs.
  destruct (_send_request _ _ st) as [r st'].
  cbn [snd] in Hs. specialize (Hs ltac:(unfold len; cbn [length app]; lia)).
  assert (Hst : forall resp : bytes,
            snd (match resp with
                 | [] => raise (IOError "No response")
                 | _ =>
                     fc ← lift (getitem resp 0);
                     if negb (Z.land (ord fc) 0x80 =? 0) then
                       raise (IOError ("Exception response: " +:+ hex resp))
                     else
                       byte_count ← lift (getitem resp 1);
                       let regs_bytes := slice resp 2 (2 + ord byte_count) in
                       regs ← lift (regs_loop regs_bytes);
                       mret (take (Z.to_nat count) regs)
                 end st') = st') by (intros; apply read_tail_state).
  destruct r as [resp|e]; [rewrite Hst|cbn [snd]]; subst st'; cbv zeta; f_equal; f_equal.
  all: unfold pack_B; destruct ((0 <=? unit (self st)) && (unit (self st) <=? 255));
    reflexivity.
Qed.

Lemma ord_chr (v : Z) : 0 <= v <= 255 -> ord (chr v) = v.
Proof.
  intros Hv. unfold ord, chr.
  destruct (Byte.of_N (Z.to_N v)) as [b|] eqn:E.
  - apply Byte.to_of_N in E. rewrite E. lia.
  - apply Byte.of_N_None_iff in E. lia.
Qed.

Lemma succ_tid_range (t : Z) : 0 <= succ_tid t < 65536.
Proof. unfold succ_tid. apply Z.mod_pos_bound. lia. Qed.

Lemma read_tid (p : peer) (address count : Z) (st : state) :
  1 <= count <= 125 ->
  _tid (self (snd (read_holding_registers p address count st)))
  = succ_tid (_tid (self st)).
Proof. intros Hc. now rewrite read_holding_registers_state. Qed.

(** X1. Every read with a count in 1..125 advances the transaction id of the
    client by one, modulo 65536, whatever the device does: after any run of
    such reads the id is the old one plus the number of reads, modulo 65536. *)
Theorem tid_advances_by_one_per_read (reqs : list (peer * Z * Z)) (st : state) :
  Forall (fun r => 1 <= r.2 <= 125) reqs ->
  0 <= _tid (self st) < 65536 ->
  _tid (self (reads reqs st)) = (_tid (self st) + len reqs) mod 65536
  /\ 0 <= _tid (self (reads reqs st)) < 65536.
Proof.
  intros Hreqs. revert st. unfold reads.
  induction Hreqs as [|[[p a] c] reqs Hc _ IH]; intros st Ht.
  - cbn. rewrite Z.add_0_r, Z.mod_small by lia. split; [reflexivity|lia].
  - cbn [foldl]. cbn in Hc.
    specialize (IH (snd (read_holding_registers p a c st))).
    rewrite (read_tid p a c st Hc) in IH.
    specialize (IH (succ_tid_range _)). destruct IH as [IH1 IH2].
    split; [|exact IH2]. rewrite IH1. unfold succ_tid, len. cbn [length].
    rewrite Zplus_mod_idemp_l. f_equal. lia.
Qed.

Lemma tid_advances_by_one_per_read_witness :
  _tid (self (reads [(ConnectFails "refused", 0, 22); (Replies wire_one_word, 0, 1)]
                (mkState (mkClient "h" 502 default_timeout 1 65535) []))) = 1.
Proof.
  apply (tid_advances_by_one_per_read
           [(ConnectFails "refused", 0, 22); (Replies wire_one_word, 0, 1)]
           (mkState (mkClient "h" 502 default_timeout 1 65535) [])).
  - repeat constructor; cbn; lia.
  - cbn. lia.
Defined.

Lemma request_adu_bytes (t u address count : Z) :
  0 <= t < 65536 -> 0 <= u <= 255 -> 1 <= count <= 125 ->
  ord <$> request_adu t u address count
  = [ t / 256; t mod 256; 0; 0; 0; 6; u; 3;
      (address mod 65536) / 256; (address mod 65536) mod 256; 0; count ].
Proof.
  intros Ht Hu Hc. unfold request_adu.
  pose proof (Z.mod_pos_bound address 65536 ltac:(lia)) as Ha.
  rewrite (Z.mod_small count 65536) by lia.
  rewrite (Z.div_small count 256) by lia. rewrite (Z.mod_small count 256) by lia.
  cbn [fmap list_fmap].
  rewrite !ord_chr; [reflexivity|..]; try lia.
  - pose proof (Z.mod_pos_bound (address mod 65536) 256 ltac:(lia)). lia.
  - assert (0 <= address mod 65536 / 256 < 256)
      by (split; [apply Z.div_pos; lia|apply Z.div_lt_upper_bound; lia]). lia.
  - pose proof (Z.mod_pos_bound t 256 ltac:(lia)). lia.
  - assert (0 <= t / 256 < 256)
      by (split; [apply Z.div_pos; lia|apply Z.div_lt_upper_bound; lia]). lia.
Qed.

(** X2. Any frame the client sends for a read is twelve bytes: the new
    transaction id, protocol id 0, length 6, the unit id, function code 3, the
    address reduced modulo 65536 and the count, multi-byte fields big-endian.
    A frame is sent whenever the connection is accepted. *)
Theorem request_frame_layout (p : peer) (address count : Z) (st : state) :
  1 <= count <= 125 -> 0 <= unit (self st) <= 255 ->
  let out := read_holding_registers p address count st in
  exists l,
    log (snd out) = log st ++ l
    /\ (forall adu, EvSendall adu ∈ l ->
          ord <$> adu
          = [ succ_tid (_tid (self st)) / 256; succ_tid (_tid (self st)) mod 256;
              0; 0; 0; 6; unit (self st); 3;
              (address mod 65536) / 256; (address mod 65536) mod 256; 0; count ])
    /\ (connects p = true -> exists adu, EvSendall adu ∈ l).
Proof.
  intros Hc Hu out. subst out. rewrite (read_holding_registers_state p address count st Hc).
  cbv zeta. cbn [log].
  destruct (Z.leb_spec 0 (unit (self st))); [|lia].
  destruct (Z.leb_spec (unit (self st)) 255); [|lia]. cbn [andb].
  eexists. split; [reflexivity|]. split.
  - intros adu Hin.
    assert (adu = request_adu (succ_tid (_tid (self st))) (unit (self st)) address count)
      as ->.
    { unfold exchange_events in Hin.
      destruct p; repeat (apply elem_of_cons in Hin as [Hin|Hin]; [congruence|]);
        now apply elem_of_nil in Hin. }
    apply request_adu_bytes; [apply succ_tid_range|lia|lia].
  - intros Hp. exists (request_adu (succ_tid (_tid (self st))) (unit (self st)) address count).
    unfold exchange_events. destruct p; try discriminate;
      do 2 (apply elem_of_cons; right); apply elem_of_cons; left; reflexivity.
Qed.

Lemma request_frame_layout_witness :
  exists l,
    log (snd (read_holding_registers (Replies wire_one_word) 0x0102 22
                (mkState client0 []))) = [] ++ l
    /\ forall adu, EvSendall adu ∈ l ->
         ord <$> adu = [0; 1; 0; 0; 0; 6; 1; 3; 1; 2; 0; 22].
Proof.
  destruct (request_frame_layout (Replies wire_one_word) 0x0102 22 (mkState client0 [])
              ltac:(lia) ltac:(cbn; lia)) as (l & Hl & Hadu & _).
  exists l. split; [exact Hl|exact Hadu].
Defined.

(** X3. A read with a count in 1..125 opens at most one connection.  When the
    unit id does not fit a byte nothing happens on the network; when the
    connection is refused nothing follows the attempt; otherwise exactly one
    frame is sent and the socket is closed last, however the exchange ends. *)
Theorem socket_discipline (p : peer) (address count : Z) (st : state) :
  1 <= count <= 125 ->
  let out := read_holding_registers p address count st in
  let c := self st in
  exists l,
    log (snd out) = log st ++ l
    /\ (byte_unit (unit c) = false -> l = [])
    /\ (byte_unit (unit c) = true -> connects p = false ->
        l = [EvConnect (host c) (port c) (timeout c)])
    /\ (byte_unit (unit c) = true -> connects p = true ->
        exists mid,
          l = EvConnect (host c) (port c) (timeout c) :: mid ++ [EvClose]
          /\ Forall (fun ev => is_connect ev = false /\ is_close ev = false) mid
          /\ length (List.filter is_sendall mid) = 1%nat).
Proof.
  intros Hc out c. subst out c.
  rewrite (read_holding_registers_state p address count st Hc).
  cbv zeta. cbn [log]. unfold byte_unit.
  eexists. split; [reflexivity|].
  destruct ((0 <=? unit (self st)) && (unit (self st) <=? 255)).
  - split; [discriminate|]. unfold exchange_events.
    destruct p as [msg|msg|msg|wire]; (split; [intros _ Hp|intros _ Hp]);
      try discriminate; try reflexivity.
    + eexists [_; _]. split; [reflexivity|]. split; [repeat constructor|reflexivity].
    + eexists [_; _; _]. split; [reflexivity|]. split; [repeat constructor|reflexivity].
    + eexists [_; _; _]. split; [reflexivity|]. split; [repeat constructor|reflexivity].
  - split; [reflexivity|]. split; discriminate.
Qed.

Lemma socket_discipline_witness :
  log (snd (read_holding_registers (SendFails "broken pipe") 0 22 (mkState client0 [])))
  <> []
  /\ last (log (snd (read_holding_registers (SendFails "broken pipe") 0 22
                       (mkState client0 [])))) = Some EvClose.
Proof.
  destruct (socket_discipline (SendFails "broken pipe") 0 22 (mkState client0 [])
              ltac:(lia)) as (l & Hl & _ & _ & H).
  destruct (H eq_refl eq_refl) as (mid & -> & _).
  rewrite Hl. split; [discriminate|].
  cbn [app log]. rewrite app_comm_cons. apply last_snoc.
Defined.

(** X4. With a unit id outside 0..255 a read raises the [struct] error before
    any network activity, and the transaction id has been advanced all the
    same. *)
Theorem unit_out_of_range_no_io (p : peer) (address count : Z) (st : state) :
  1 <= count <= 125 -> unit (self st) < 0 \/ 255 < unit (self st) ->
  let out := read_holding_registers p address count st in
  fst out = Raise (StructError "ubyte format requires 0 <= number <= 255")
  /\ log (snd out) = log st
  /\ _tid (self (snd out)) = (_tid (self st) + 1) mod 65536.
Proof.
  intros Hc Hu out. subst out.
  assert (E : (0 <=? unit (self st)) && (unit (self st) <=? 255) = false).
  { apply andb_false_iff. destruct Hu; [left; apply Z.leb_gt|right; apply Z.leb_gt]; lia. }
  split; [|split].
  - rewrite read_holding_registers_outcome. unfold read_outcome, send_outcome, pack_B.
    destruct (Z.ltb_spec count 1); [lia|]. destruct (Z.gtb_spec count 125); [lia|].
    cbn [orb]. rewrite E. reflexivity.
  - rewrite (read_holding_registers_state p address count st Hc). cbv zeta. cbn [log].
    rewrite E. apply app_nil_r.
  - apply read_tid. exact Hc.
Qed.

Lemma unit_out_of_range_no_io_witness :
  fst (read_holding_registers (Replies wire_one_word) 0 22
         (mkState (mkClient "h" 502 default_timeout 256 0) []))
  = Raise (StructError "ubyte format requires 0 <= number <= 255")
  /\ _tid (self (snd (read_holding_registers (Replies wire_one_word) 0 22
                        (mkState (mkClient "h" 502 default_timeout 256 0) [])))) = 1.
Proof.
  destruct (unit_out_of_range_no_io (Replies wire_one_word) 0 22
              (mkState (mkClient "h" 502 default_timeout 256 0) [])
              ltac:(lia) ltac:(right; cbn; lia)) as (H1 & _ & H3).
  split; [exact H1|exact H3].
Defined.

(** X5. A read that returns did so on a count in 1..125 and a reply of at least
    nine bytes; it returns at most [count] and at most 127 words, each of them
    in 0..65535. *)
Theorem read_result_bounds (p : peer) (address count : Z) (st : state) (regs : list Z) :
  fst (read_holding_registers p address count st) = Ok regs ->
  1 <= count <= 125
  /\ (exists wire, p = Replies wire /\ 9 <= len (received wire))
  /\ len regs <= count
  /\ len regs <= 127
  /\ Forall (fun w => 0 <= w < 65536) regs.
Proof.
  rewrite read_holding_registers_outcome. intros Hr.
  assert (Hc : 1 <= count <= 125).
  { unfold read_outcome in Hr.
    destruct (Z.ltb_spec count 1); [discriminate|].
    destruct (Z.gtb_spec count 125); [discriminate|]. lia. }
  apply read_outcome_ok_inv in Hr as (wire & -> & Hr).
  unfold reply_outcome in Hr.
  destruct (Z.ltb_spec (len (received wire)) 7) as [|H7]; [discriminate|].
  destruct (drop 7 (received wire)) as [|fc [|bc body]] eqn:Hd; try discriminate.
  { destruct (negb _); discriminate. }
  destruct (negb _); [discriminate|]. injection Hr as <-.
  pose proof (ord_nonneg bc) as Hbc.
  assert (Hlen : len (take (Z.to_nat count) (words (take (Z.to_nat (ord bc)) body)))
                 = Z.min (Z.max 0 count) (Z.min (ord bc) (len body) / 2)).
  { rewrite length_take_words. now rewrite Z2Nat.id by lia. }
  assert (Hq : Z.min (ord bc) (len body) / 2 <= 127).
  { assert (Z.min (ord bc) (len body) / 2 < 128)
      by (apply Z.div_lt_upper_bound; lia). lia. }
  split; [exact Hc|]. split; [|split; [|split]].
  - exists wire. split; [reflexivity|].
    apply (f_equal length) in Hd. rewrite length_drop in Hd. cbn [length] in Hd.
    unfold len. lia.
  - rewrite Hlen. lia.
  - rewrite Hlen. lia.
  - apply Forall_forall. intros w Hw.
    apply (subseteq_take _ _ _) in Hw. now apply words_bound in Hw.
Qed.

Lemma read_result_bounds_witness :
  exists wire, Replies wire_three_words_and_a_half = Replies wire
               /\ 9 <= len (received wire).
Proof.
  destruct (read_result_bounds (Replies wire_three_words_and_a_half) 0 2
              (mkState client0 []) [215; 20001] ltac:(vm_compute; reflexivity))
    as (_ & H & _).
  exact H.
Defined.

Lemma pack_words_ok (ws : list Z) (body : bytes) :
  pack_words ws = Ok body ->
  words body = ws /\ len body = 2 * len ws.
Proof.
  revert body. induction ws as [|w ws IH]; intros body.
  - intros [= <-]. split; reflexivity.
  - cbn [pack_words]. unfold mbind, result_bind, mret, result_ret, pack_H.
    destruct (Z.leb_spec 0 w); [|discriminate].
    destruct (Z.leb_spec w 65535); [|discriminate]. cbn [andb].
    destruct (pack_words ws) as [bs|]; [|discriminate].
    intros [= <-]. destruct (IH bs eq_refl) as [IH1 IH2].
    cbn [app words]. rewrite IH1. split.
    + f_equal. rewrite !ord_chr.
      * pose proof (Z.div_mod w 256 ltac:(lia)). lia.
      * pose proof (Z.mod_pos_bound w 256 ltac:(lia)). lia.
      * assert (0 <= w / 256 < 256)
          by (split; [apply Z.div_pos; lia|apply Z.div_lt_upper_bound; lia]). lia.
    + unfold len in *. cbn [length]. lia.
Qed.

(** X6. Round trip: when the register bytes of a reply are the big-endian
    packing of the words [ws], their number is the declared byte count and
    the function code has no exception bit, the read returns the first
    [count] words of [ws]. *)
Theorem words_round_trip
    (wire hdr body : bytes) (fc bc : Byte.byte) (ws : list Z)
    (address count : Z) (st : state) :
  1 <= count <= 125 -> 0 <= unit (self st) <= 255 ->
  pack_words ws = Ok body ->
  received wire = hdr ++ fc :: bc :: body -> length hdr = 7%nat ->
  Z.testbit (ord fc) 7 = false -> ord bc = 2 * len ws ->
  fst (read_holding_registers (Replies wire) address count st)
  = Ok (take (Z.to_nat count) ws).
Proof.
  intros Hc Hu Hp Hw Hh Hfc Hbc.
  rewrite read_holding_registers_replies by assumption.
  destruct (pack_words_ok ws body Hp) as [Hws Hlen].
  rewrite (reply_outcome_payload count _ fc bc body).
  - rewrite (take_ge body); [now rewrite Hws|]. unfold len in *. lia.
  - rewrite Hw. rewrite drop_app_length'; [reflexivity|now symmetry].
  - rewrite <- high_bit_test in Hfc. apply negb_false_iff in Hfc.
    now apply Z.eqb_eq in Hfc.
Qed.

Lemma words_round_trip_witness :
  fst (read_holding_registers (Replies wire_full_block) 0 22 (mkState client0 []))
  = Ok [215; 20001; 1200; 50; 0; 2; 1; 3; 31; 2; 0; 0; 0; 0; 0; 0; 15; 0; 0; 0; 5; 300].
Proof.
  apply (words_round_trip wire_full_block (to_bytes [0; 1; 0; 0; 0; 47; 1])
           (to_bytes [0; 215; 78; 33; 4; 176; 0; 50; 0; 0; 0; 2; 0; 1; 0; 3; 0; 31; 0; 2;
                      0; 0; 0; 0; 0; 0; 0; 0; 0; 0; 0; 0; 0; 15; 0; 0; 0; 0; 0; 0; 0; 5;
                      1; 44])
           Byte.x03 Byte.x2c
           [215; 20001; 1200; 50; 0; 2; 1; 3; 31; 2; 0; 0; 0; 0; 0; 0; 15; 0; 0; 0; 5; 300]
           0 22 (mkState client0 []));
    first [lia | reflexivity | (cbn; lia)].
Defined.

End ClientRuns.

(** ** The coordinator over several polls *)

Section PollRuns.

Import ModbusClient Sensor Samples ClientVocabulary SensorVocabulary.

Lemma fetch_data_config (p : peer) (c c' : TimNetCoordinator) :
  same_config c c' -> _fetch_data p c' = _fetch_data p c.
Proof.
  intros (Hh & Hp & Hu). unfold _fetch_data, _fetch_data_io. now rewrite Hh, Hp, Hu.
Qed.

Lemma poll_failed_config (p : peer) (c c' : TimNetCoordinator) :
  same_config c c' -> poll_failed p c' = poll_failed p c.
Proof. intros H. unfold poll_failed. now rewrite (fetch_data_config p c c' H). Qed.

Lemma refresh_cases (p : peer) (c : TimNetCoordinator) :
  (poll_failed p c = true /\
   async_refresh p c
   = mkCoord (host c) (port c) (unit_id c) (_last_valid_data c) false
             (Some (_last_valid_data c)))
  \/ (exists d, poll_failed p c = false /\ _fetch_data p c = Ok d /\ d <> ∅ /\
        async_refresh p c = mkCoord (host c) (port c) (unit_id c) d true (Some d)).
Proof.
  destruct (poll_failed p c) eqn:E.
  - left. split; [reflexivity|]. now apply refresh_failure.
  - right. apply poll_failed_false in E as (d & Hd & Hne).
    exists d. repeat split; try assumption. now apply refresh_success.
Qed.

Lemma refresh_config (p : peer) (c : TimNetCoordinator) : same_config c (async_refresh p c).
Proof.
  destruct (refresh_cases p c) as [[_ ->]|(d & _ & _ & _ & ->)]; repeat split.
Qed.

Lemma polls_config (ps : list peer) (c : TimNetCoordinator) : same_config c (polls ps c).
Proof.
  revert c. unfold polls. induction ps as [|p ps IH]; intros c; [repeat split|].
  cbn [foldl]. destruct (IH (async_refresh p c)) as (H1 & H2 & H3).
  destruct (refresh_config p c) as (G1 & G2 & G3).
  repeat split; congruence.
Qed.

Lemma polls_app (ps qs : list peer) (c : TimNetCoordinator) :
  polls (ps ++ qs) c = polls qs (polls ps c).
Proof. unfold polls. apply foldl_app. Qed.

Lemma polls_cons (p : peer) (ps : list peer) (c : TimNetCoordinator) :
  polls (p :: ps) c = polls ps (async_refresh p c).
Proof. reflexivity. Qed.

Lemma polls_all_failed (ps : list peer) (c : TimNetCoordinator) :
  Forall (fun q => poll_failed q c = true) ps -> ps <> [] ->
  polls ps c
  = mkCoord (host c) (port c) (unit_id c) (_last_valid_data c) false
            (Some (_last_valid_data c)).
Proof.
  intros Hall. revert c Hall. induction ps as [|p ps IH]; intros c Hall Hne; [done|].
  apply Forall_cons in Hall as [Hp Hall]. rewrite polls_cons.
  rewrite (refresh_failure p c Hp).
  destruct ps as [|q ps]; [reflexivity|].
  rewrite IH; [reflexivity| |discriminate].
  eapply Forall_impl; [exact Hall|]. intros q' Hq'. cbn beta.
  rewrite <- Hq'. apply poll_failed_config. repeat split.
Qed.

(** X7. After any sequence of poll ticks in which one poll succeeds and every
    later one fails, the cached reading and [data] are the reading of that
    poll, [connection_ok] holds exactly when no poll followed it, and host,
    port and unit are untouched. *)
Theorem last_successful_poll_wins
    (before after : list peer) (p : peer) (c : TimNetCoordinator) (d : gmap Z Z) :
  _fetch_data p c = Ok d -> d <> ∅ ->
  Forall (fun q => poll_failed q c = true) after ->
  let c' := polls (before ++ p :: after) c in
  _last_valid_data c' = d
  /\ data c' = Some d
  /\ connection_ok c' = bool_decide (after = [])
  /\ same_config c c'.
Proof.
  intros Hd Hne Hall c'. subst c'.
  split; [|split; [|split]]; [| | |apply polls_config].
  all: rewrite polls_app; change (p :: after) with ([p] ++ after); rewrite polls_app.
  all: pose proof (polls_config before c) as Hcfg.
  all: assert (Hr : polls [p] (polls before c)
                    = mkCoord (host (polls before c)) (port (polls before c))
                              (unit_id (polls before c)) d true (Some d))
         by (rewrite polls_cons; apply refresh_success;
             [now rewrite (fetch_data_config p c _ Hcfg)|exact Hne]).
  all: rewrite Hr.
  all: destruct after as [|q after]; [reflexivity|].
  all: rewrite polls_all_failed; [reflexivity| |discriminate].
  all: eapply Forall_impl; [exact Hall|]; intros q' Hq'; cbn beta.
  all: rewrite <- Hq'; apply poll_failed_config.
  all: destruct Hcfg as (H1 & H2 & H3); repeat split; assumption.
Qed.

Lemma last_successful_poll_wins_witness :
  _last_valid_data
    (polls ([ConnectFails "refused"] ++ Replies wire_one_word
              :: [RecvFails "timed out"; Replies wire_no_words]) coordinator0)
  = {[ 0 := 215 ]}.
Proof.
  apply (last_successful_poll_wins [ConnectFails "refused"]
           [RecvFails "timed out"; Replies wire_no_words]
           (Replies wire_one_word) coordinator0 {[ 0 := 215 ]}).
  - vm_compute. reflexivity.
  - apply insert_non_empty.
  - repeat constructor.
Defined.

Lemma polls_keep_cache (ps : list peer) (c : TimNetCoordinator) :
  _last_valid_data c <> ∅ -> _last_valid_data (polls ps c) <> ∅.
Proof.
  revert c. induction ps as [|p ps IH]; intros c Hne; [exact Hne|].
  rewrite polls_cons. apply IH.
  destruct (refresh_cases p c) as [[_ ->]|(d & _ & _ & Hd & ->)]; assumption.
Qed.

Lemma polls_data (ps : list peer) (c : TimNetCoordinator) :
  ps <> [] -> data (polls ps c) = Some (_last_valid_data (polls ps c)).
Proof.
  intros Hne. destruct ps as [|p ps _] using rev_ind; [done|].
  rewrite polls_app. generalize (polls ps c). intros c'. rewrite polls_cons.
  change (polls [] ?x) with x.
  destruct (refresh_cases p c') as [[_ ->]|(d & _ & _ & _ & ->)]; reflexivity.
Qed.

(** X8. Poll ticks never empty a non-empty cache, after at least one tick
    [data] is the cached reading, and host, port and unit never change. *)
Theorem cache_is_never_cleared (ps : list peer) (c : TimNetCoordinator) :
  (_last_valid_data c <> ∅ -> _last_valid_data (polls ps c) <> ∅)
  /\ (ps <> [] -> data (polls ps c) = Some (_last_valid_data (polls ps c)))
  /\ host (polls ps c) = host c
  /\ port (polls ps c) = port c
  /\ unit_id (polls ps c) = unit_id c.
Proof.
  split; [apply polls_keep_cache|]. split; [apply polls_data|apply polls_config].
Qed.

Lemma cache_is_never_cleared_witness :
  _last_valid_data
    (polls [ConnectFails "refused"; Replies wire_no_words] coordinator_stale) <> ∅
  /\ data (polls [ConnectFails "refused"; Replies wire_no_words] coordinator_stale)
     = Some (_last_valid_data
               (polls [ConnectFails "refused"; Replies wire_no_words] coordinator_stale)).
Proof.
  destruct (cache_is_never_cleared [ConnectFails "refused"; Replies wire_no_words]
              coordinator_stale) as (H1 & H2 & _).
  split; [apply H1; apply insert_non_empty|apply H2; discriminate].
Defined.

Lemma filter_none {A} (f : A -> bool) (l : list A) :
  Forall (fun x => f x = false) l -> List.filter f l = [].
Proof.
  induction 1 as [|x l Hx _ IH]; [reflexivity|]. cbn. now rewrite Hx.
Qed.

Lemma fetch_data_log (p : peer) (c : TimNetCoordinator) :
  0 <= unit_id c <= 255 ->
  snd (_fetch_data_io p c)
  = exchange_events (ModbusClient.__init__ (host c) (port c) default_timeout (unit_id c))
      p (request_adu 1 (unit_id c) 0 22).
Proof.
  intros Hu. unfold _fetch_data_io.
  pose proof (read_holding_registers_state p 0 22
    (mkState (ModbusClient.__init__ (host c) (port c) default_timeout (unit_id c)) [])
    ltac:(lia)) as Hs.
  destruct (read_holding_registers p 0 22 _) as [r st']. cbn [snd] in *. subst st'.
  cbn [log self ModbusClient.unit ModbusClient.__init__ app].
  destruct (Z.leb_spec 0 (unit_id c)); [|lia].
  destruct (Z.leb_spec (unit_id c) 255); [|lia]. reflexivity.
Qed.

(** X9. Every poll makes a new client, so every poll opens exactly one
    connection and any frame it sends is the same twelve bytes, with
    transaction id 1 and a count of 22 registers from address 0. *)
Theorem every_poll_sends_the_same_request (p : peer) (c : TimNetCoordinator) :
  0 <= unit_id c <= 255 ->
  (forall adu, EvSendall adu ∈ snd (_fetch_data_io p c) ->
     ord <$> adu = [0; 1; 0; 0; 0; 6; unit_id c; 3; 0; 0; 0; 22])
  /\ (connects p = true -> exists adu, EvSendall adu ∈ snd (_fetch_data_io p c))
  /\ length (List.filter is_connect (snd (_fetch_data_io p c))) = 1%nat.
Proof.
  intros Hu. rewrite (fetch_data_log p c Hu). unfold exchange_events.
  split; [|split].
  - intros adu Hin.
    assert (adu = request_adu 1 (unit_id c) 0 22) as ->.
    { destruct p; repeat (apply elem_of_cons in Hin as [Hin|Hin]; [congruence|]);
        now apply elem_of_nil in Hin. }
    apply (request_adu_bytes 1 (unit_id c) 0 22); lia.
  - intros Hp. exists (request_adu 1 (unit_id c) 0 22).
    destruct p; try discriminate;
      do 2 (apply elem_of_cons; right); apply elem_of_cons; left; reflexivity.
  - destruct p; reflexivity.
Qed.

Lemma every_poll_sends_the_same_request_witness :
  exists adu, EvSendall adu ∈ snd (_fetch_data_io (RecvFails "timed out") coordinator0).
Proof.
  destruct (every_poll_sends_the_same_request (RecvFails "timed out") coordinator0
              ltac:(cbn; lia)) as (_ & H & _).
  apply H. reflexivity.
Defined.

Lemma read_outcome_replies (wire : bytes) (u count : Z) :
  1 <= count <= 125 -> 0 <= u <= 255 ->
  read_outcome (Replies wire) u count = reply_outcome count (received wire).
Proof.
  intros Hc Hu. unfold read_outcome, send_outcome.
  destruct (Z.ltb_spec count 1); [lia|]. destruct (Z.gtb_spec count 125); [lia|].
  cbn [orb]. rewrite pack_B_ok by lia. unfold reply_outcome.
  destruct (len (received wire) <? 7); reflexivity.
Qed.

(** X10. When a reply has a function code without the exception bit and at
    least one whole register word, the poll succeeds and the cached reading
    maps each address below 22 to the big-endian word at that position of the
    reply, and to nothing beyond the words the reply carries. *)
Theorem cached_reading_matches_reply
    (wire body : bytes) (fc bc : Byte.byte) (c : TimNetCoordinator) :
  0 <= unit_id c <= 255 ->
  drop 7 (received wire) = fc :: bc :: body ->
  Z.testbit (ord fc) 7 = false ->
  2 <= ord bc -> 2 <= len body ->
  let c' := async_refresh (Replies wire) c in
  connection_ok c' = true
  /\ forall k,
       _last_valid_data c' !! k
       = if decide (0 <= k < 22)
         then words (take (Z.to_nat (ord bc)) body) !! Z.to_nat k
         else None.
Proof.
  intros Hu Hd Hfc Hbc Hbody c'. subst c'.
  set (ws := words (take (Z.to_nat (ord bc)) body)).
  assert (Hf : _fetch_data (Replies wire) c = Ok (dict_of_list (take 22 ws))).
  { rewrite fetch_data_outcome, read_outcome_replies by lia.
    rewrite (reply_outcome_payload 22 _ fc bc body Hd); [reflexivity|].
    rewrite <- high_bit_test in Hfc. apply negb_false_iff in Hfc.
    now apply Z.eqb_eq in Hfc. }
  assert (Hlook : forall k, dict_of_list (take 22 ws) !! k
                  = if decide (0 <= k < 22) then ws !! Z.to_nat k else None).
  { intros k. rewrite dict_of_list_lookup.
    destruct (decide (0 <= k)) as [Hk|Hk].
    - destruct (decide (0 <= k < 22)) as [Hk2|Hk2].
      + apply lookup_take_lt. lia.
      + apply lookup_take_ge. lia.
    - rewrite decide_False by lia. reflexivity. }
  assert (Hne : dict_of_list (take 22 ws) <> ∅).
  { intros He. apply (f_equal (fun m : gmap Z Z => m !! 0)) in He.
    rewrite Hlook, lookup_empty in He. rewrite decide_True in He by lia.
    change (Z.to_nat 0) with 0%nat in He.
    assert (Hl : (0 < length ws)%nat).
    { subst ws. rewrite length_words, length_take.
      unfold len in Hbody. apply Nat.div_str_pos. lia. }
    apply lookup_lt_is_Some_2 in Hl as [w Hw]. congruence. }
  rewrite (refresh_success _ _ _ Hf Hne). cbn [connection_ok _last_valid_data].
  split; [reflexivity|exact Hlook].
Qed.

Lemma cached_reading_matches_reply_witness :
  _last_valid_data (async_refresh (Replies wire_three_words_and_a_half) coordinator0) !! 2
  = Some 1200.
Proof.
  destruct (cached_reading_matches_reply wire_three_words_and_a_half
              (to_bytes [0; 215; 78; 33; 4; 176; 50]) Byte.x03 Byte.x07 coordinator0
              ltac:(cbn; lia) eq_refl eq_refl
              ltac:(vm_compute; discriminate) ltac:(vm_compute; discriminate)) as [_ H].
  rewrite H. reflexivity.
Defined.

Lemma reachable_data (c : TimNetCoordinator) :
  reachable c ->
  data c = Some (_last_valid_data c) \/ (data c = None /\ _last_valid_data c = ∅).
Proof.
  intros (h & p & u & ps & ->).
  destruct ps as [|q ps]; [right; split; reflexivity|].
  left. apply polls_data. discriminate.
Qed.

(** X11. In any state a coordinator can reach, a failed poll changes neither
    what any sensor reports nor the door state nor the cached reading; only
    the connection indicator goes off. *)
Theorem stale_values_survive_outage (p : peer) (c : TimNetCoordinator) :
  reachable c -> poll_failed p c = true ->
  let c' := async_refresh p c in
  (forall s, native_value c' s = native_value c s)
  /\ door_is_on c' = door_is_on c
  /\ _last_valid_data c' = _last_valid_data c
  /\ is_on c' = false.
Proof.
  intros Hr Hf c'. subst c'. rewrite (refresh_failure p c Hf).
  destruct (reachable_data c Hr) as [Hd|[Hd He]].
  - unfold native_value, door_is_on, is_on. cbn [data connection_ok _last_valid_data].
    rewrite Hd. repeat split.
  - unfold native_value, door_is_on, is_on. cbn [data connection_ok _last_valid_data].
    rewrite Hd, He. repeat split.
Qed.

Lemma stale_values_survive_outage_witness :
  door_is_on (async_refresh (ConnectFails "refused")
                (polls [Replies wire_full_block] coordinator0))
  = Some false.
Proof.
  destruct (stale_values_survive_outage (ConnectFails "refused")
              (polls [Replies wire_full_block] coordinator0)) as (_ & H & _).
  - exists "10.0.0.11", 502, 1, [Replies wire_full_block]. reflexivity.
  - vm_compute. reflexivity.
  - rewrite H. vm_compute. reflexivity.
Defined.

End PollRuns.

(** ** The decoder on the catalog *)

Section DecoderFacts.

Import ModbusClient Sensor Samples ClientVocabulary SensorVocabulary.

Lemma decode_catalog (rd : reg_def) (raw : Z) :
  rd ∈ REGISTER_DEFINITIONS -> exists v, decode rd raw = Ok v /\ v <> VNone.
Proof.
  unfold REGISTER_DEFINITIONS. intros Hin.
  repeat (apply elem_of_cons in Hin as [->|Hin];
          [unfold decode, round_div, truediv, get_or;
           cbn [key divider String.eqb Ascii.eqb Bool.eqb orb andb Z.eqb];
           repeat case_match; eexists; (split; [reflexivity|discriminate])|]).
  now apply elem_of_nil in Hin.
Qed.

Lemma native_value_catalog (c : TimNetCoordinator) (rd : reg_def) :
  rd ∈ REGISTER_DEFINITIONS ->
  exists v,
    native_value c (TimNetSensor__init__ rd) = Ok v
    /\ (v = VNone <-> raw_at c (address rd) = None).
Proof.
  intros Hin. unfold native_value, raw_at, TimNetSensor__init__.
  cbn [_address _reg_def]. unfold data_bool, dict_bool.
  destruct (data c) as [d|]; cbn [mbind option_bind negb].
  - destruct (bool_decide (d = ∅)) eqn:E; cbn [negb].
    + apply bool_decide_eq_true in E as ->. exists VNone.
      split; [reflexivity|]. rewrite lookup_empty. split; reflexivity.
    + destruct (d !! address rd) as [raw|].
      * destruct (decode_catalog rd raw Hin) as (v & Hv & Hne).
        exists v. split; [exact Hv|]. split; [contradiction|discriminate].
      * exists VNone. split; [reflexivity|]. split; reflexivity.
  - exists VNone. split; [reflexivity|]. split; reflexivity.
Qed.

(** X12. For every register of the catalog and every coordinator state,
    [native_value] returns without raising, and it returns [None] exactly when
    the coordinator has no raw word at the address of the register. *)
Theorem native_value_never_raises_on_catalog (c : TimNetCoordinator) (rd : reg_def) :
  rd ∈ REGISTER_DEFINITIONS ->
  exists v,
    native_value c (TimNetSensor__init__ rd) = Ok v
    /\ (v = VNone <-> raw_at c (address rd) = None).
Proof. apply native_value_catalog. Qed.

Lemma native_value_never_raises_on_catalog_witness :
  exists v, native_value coordinator0 (TimNetSensor__init__ reg_STAT) = Ok v.
Proof.
  destruct (native_value_never_raises_on_catalog coordinator0 reg_STAT) as (v & Hv & _).
  - do 13 (apply elem_of_cons; right). apply elem_of_cons; left; reflexivity.
  - exists v. exact Hv.
Defined.

Lemma decode_flap (rd : reg_def) (raw : Z) :
  key rd = "SER1" ->
  decode rd raw
  = if raw =? 255 then Ok (VStr "Inicializace")
    else Ok (VInt (Z.min 100 (Z.max 0 raw))).
Proof. intros Hk. unfold decode. rewrite Hk. reflexivity. Qed.

(** X13. The flap position (key SER1) decodes 255 to "Inicializace" and every
    other word to an integer between 0 and 100: the word itself when it is in
    that range, 100 above it and 0 below it. *)
Theorem flap_position_is_clamped (rd : reg_def) (raw : Z) :
  key rd = "SER1" ->
  (raw = 255 -> decode rd raw = Ok (VStr "Inicializace"))
  /\ (raw <> 255 ->
      exists n, decode rd raw = Ok (VInt n)
                /\ 0 <= n <= 100
                /\ (0 <= raw <= 100 -> n = raw)
                /\ (100 < raw -> n = 100)
                /\ (raw < 0 -> n = 0)).
Proof.
  intros Hk. rewrite (decode_flap rd raw Hk). split.
  - intros ->. reflexivity.
  - intros Hr. apply Z.eqb_neq in Hr. rewrite Hr.
    eexists. split; [reflexivity|]. lia.
Qed.

Lemma flap_position_is_clamped_witness :
  decode (reg_of_key "SER1") 255 = Ok (VStr "Inicializace")
  /\ exists n, decode (reg_of_key "SER1") 254 = Ok (VInt n) /\ n = 100.
Proof.
  destruct (flap_position_is_clamped (reg_of_key "SER1") 255 eq_refl) as [H1 _].
  destruct (flap_position_is_clamped (reg_of_key "SER1") 254 eq_refl) as [_ H2].
  split; [apply H1; reflexivity|].
  destruct (H2 ltac:(lia)) as (n & Hn & _ & _ & H100 & _).
  exists n. split; [exact Hn|apply H100; lia].
Defined.

Lemma level_map_lookup (k : Z) :
  level_map !! k
  = if decide (k = 1) then Some "-2"
    else if decide (k = 2) then Some "-1"
    else if decide (k = 3) then Some "Standard"
    else if decide (k = 4) then Some "+1"
    else if decide (k = 5) then Some "+2"
    else None.
Proof.
  unfold level_map.
  repeat (rewrite lookup_insert; case_decide; [subst; reflexivity|];
          rewrite (decide_False (P := k = _)) by congruence).
  rewrite lookup_singleton. case_decide; [subst; reflexivity|].
  rewrite decide_False by congruence. reflexivity.
Qed.

(** X14. The sensitivity register (key SDS) decodes 255 to "Vypnuto".  For
    another word the label starts with the level text of [raw // 10], which is
    the text the refuel-offset table gives, when the word is in 10..59, and
    with "Neznámé" when it is below 10 or at least 60. *)
Theorem sensitivity_level_label (rd : reg_def) (raw : Z) :
  key rd = "SDS" ->
  (raw = 255 -> decode rd raw = Ok (VStr "Vypnuto"))
  /\ (raw <> 255 ->
      let marker := if raw mod 10 =? 1 then "(Aktivní)" else "(Neaktivní)" in
      (10 <= raw <= 59 ->
       exists text, level_map !! (raw / 10) = Some text
                    /\ REFUEL_MAP !! (raw / 10) = Some text
                    /\ decode rd raw = Ok (VStr (text +:+ " " +:+ marker)))
      /\ (raw < 10 \/ 60 <= raw ->
          decode rd raw = Ok (VStr ("Neznámé" +:+ " " +:+ marker)))).
Proof.
  intros Hk. split.
  - intros ->. unfold decode. rewrite Hk. reflexivity.
  - intros Hr. cbv zeta. rewrite (decode_sds rd raw Hk Hr).
    change (REFUEL_MAP) with level_map. rewrite level_map_lookup. split.
    + intros Hrange.
      assert (1 <= raw / 10 <= 5).
      { split; [apply Z.div_le_lower_bound; lia|].
        assert (raw / 10 < 6) by (apply Z.div_lt_upper_bound; lia). lia. }
      repeat (case_decide; [eexists; split; [reflexivity|split; reflexivity]|]). lia.
    + intros Hrange.
      assert (raw / 10 < 1 \/ 6 <= raw / 10).
      { destruct Hrange; [left; apply Z.div_lt_upper_bound; lia
                         |right; apply Z.div_le_lower_bound; lia]. }
      repeat (case_decide; [lia|]). reflexivity.
Qed.

Lemma sensitivity_level_label_witness :
  decode (reg_of_key "SDS") 255 = Ok (VStr "Vypnuto")
  /\ decode (reg_of_key "SDS") 70 = Ok (VStr "Neznámé (Neaktivní)").
Proof.
  destruct (sensitivity_level_label (reg_of_key "SDS") 255 eq_refl) as [H1 _].
  destruct (sensitivity_level_label (reg_of_key "SDS") 70 eq_refl) as [_ H2].
  split; [apply H1; reflexivity|].
  apply (H2 ltac:(lia)). right. lia.
Defined.

Lemma float_eqb_eq (x y : spec_float) : float_eqb x y = true -> x = y.
Proof.
  destruct x as [a|a| |a m e], y as [b|b| |b n f]; cbn; try discriminate; try reflexivity.
  - intros ->%Bool.eqb_prop. reflexivity.
  - intros ->%Bool.eqb_prop. reflexivity.
  - intros [[->%Bool.eqb_prop ->%Pos.eqb_eq]%andb_prop ->%Z.eqb_eq]%andb_prop. reflexivity.
Qed.

Lemma minutes_exact_all : forallb minutes_exact (seqZ 0 1093) = true.
Proof. vm_compute. reflexivity. Qed.

Lemma combustion_register (rd : reg_def) :
  rd ∈ REGISTER_DEFINITIONS -> key rd = "CAS" -> divider rd = Some 60.
Proof.
  unfold REGISTER_DEFINITIONS. intros Hin Hk.
  repeat (apply elem_of_cons in Hin as [->|Hin]; [cbn in *; first [reflexivity | discriminate]|]).
  now apply elem_of_nil in Hin.
Qed.

(** X15. The combustion time of the catalog (key CAS, divider 60) decodes a
    whole number of minutes exactly: the word [60 * k], for [k] up to 1092,
    decodes to the float [k]. *)
Theorem whole_minutes_decode_exactly (rd : reg_def) (k : Z) :
  rd ∈ REGISTER_DEFINITIONS -> key rd = "CAS" -> 0 <= k <= 1092 ->
  decode rd (60 * k) = Ok (VFloat (float_of_int k)).
Proof.
  intros Hin Hk Hrange. unfold decode. rewrite Hk, (combustion_register rd Hin Hk).
  cbn [String.eqb Ascii.eqb Bool.eqb orb andb]. unfold round_div, truediv.
  cbn [Z.eqb]. unfold mbind, result_bind, mret, result_ret. do 2 f_equal.
  apply float_eqb_eq.
  pose proof minutes_exact_all as Hall. rewrite forallb_forall in Hall.
  apply (Hall k). apply list_elem_of_In, elem_of_seqZ. lia.
Qed.

Lemma whole_minutes_decode_exactly_witness :
  exists rd, REGISTER_DEFINITIONS !! 2%nat = Some rd
             /\ decode rd 1200 = Ok (VFloat (float_of_int 20)).
Proof.
  eexists. split; [reflexivity|].
  apply (whole_minutes_decode_exactly _ 20).
  - do 2 (apply elem_of_cons; right). apply elem_of_cons; left; reflexivity.
  - reflexivity.
  - lia.
Defined.

End DecoderFacts.

(** ** Entity set-up and diagnostic attributes *)

Section PlatformFacts.

Import ModbusClient Sensor Samples SensorPlatform ClientVocabulary SensorVocabulary.

(** X16. As written, [async_setup_entry] reads [coordinator.data] of the
    coordinator it has just created, which is still [None]: at the first
    register marked [timnet_200_only] the set-up ends with [AttributeError],
    for every configuration. *)
Theorem setup_fails_before_first_refresh (entry : entry_data) :
  async_setup_entry entry = AttributeError "'NoneType' object has no attribute 'get'".
Proof. reflexivity. Qed.

(** X17. The loop of [async_setup_entry], run on a coordinator that holds a
    reading: when the word at address 1 is 20000, 20001 or 20002 the registers
    marked [timnet_200_only] are left out; otherwise, also when address 1 is
    missing, every register of the catalog gets a sensor, in catalog order.
    The door and connection entities always come last. *)
Theorem device_variant_filter (c : TimNetCoordinator) (d : gmap Z Z) :
  data c = Some d ->
  let t2_value := default 0 (d !! 1) in
  (t2_value = 20000 \/ t2_value = 20001 \/ t2_value = 20002 ->
   add_entities c
   = Added ((SensorEntity ∘ TimNetSensor__init__
             <$> List.filter (fun rd => negb (timnet_200_only rd)) REGISTER_DEFINITIONS)
            ++ [DoorEntity; ConnectionEntity]))
  /\ (t2_value <> 20000 -> t2_value <> 20001 -> t2_value <> 20002 ->
      add_entities c
      = Added ((SensorEntity ∘ TimNetSensor__init__ <$> REGISTER_DEFINITIONS)
               ++ [DoorEntity; ConnectionEntity]))
  /\ exists entities,
       add_entities c = Added entities
       /\ ("TT2" ∈ entity_key <$> entities <-> t2_inactive t2_value = false)
       /\ "TT" ∈ entity_key <$> entities.
Proof.
  intros Hd t2_value.
  assert (Hsmall : t2_inactive t2_value = true ->
    add_entities c
    = Added ((SensorEntity ∘ TimNetSensor__init__
              <$> List.filter (fun rd => negb (timnet_200_only rd)) REGISTER_DEFINITIONS)
             ++ [DoorEntity; ConnectionEntity])).
  { intros Ht. unfold add_entities, REGISTER_DEFINITIONS. cbn [foldl].
    unfold setup_step. cbn [timnet_200_only]. rewrite Hd.
    fold t2_value. rewrite Ht. reflexivity. }
  assert (Hlarge : t2_inactive t2_value = false ->
    add_entities c
    = Added ((SensorEntity ∘ TimNetSensor__init__ <$> REGISTER_DEFINITIONS)
             ++ [DoorEntity; ConnectionEntity])).
  { intros Ht. unfold add_entities, REGISTER_DEFINITIONS. cbn [foldl].
    unfold setup_step. cbn [timnet_200_only]. rewrite Hd.
    fold t2_value. rewrite Ht. reflexivity. }
  split; [|split].
  - intros Ht. apply Hsmall. unfold t2_inactive. cbn [existsb].
    destruct Ht as [->| [->| ->]]; reflexivity.
  - intros H0 H1 H2. apply Hlarge. unfold t2_inactive. cbn [existsb].
    apply Z.eqb_neq in H0, H1, H2. now rewrite H0, H1, H2.
  - destruct (t2_inactive t2_value) eqn:Ht.
    + eexists. split; [apply Hsmall; reflexivity|]. split.
      * split; [|discriminate]. intros Hin. exfalso. vm_compute in Hin.
        repeat (apply elem_of_cons in Hin as [Hin|Hin]; [discriminate|]).
        now apply elem_of_nil in Hin.
      * apply elem_of_cons. left. reflexivity.
    + eexists. split; [apply Hlarge; reflexivity|]. split.
      * split; [reflexivity|]. intros _.
        apply elem_of_cons. right. apply elem_of_cons. left. reflexivity.
      * apply elem_of_cons. left. reflexivity.
Qed.

Lemma device_variant_filter_witness :
  add_entities (async_refresh (Replies wire_full_block) coordinator0)
  = Added ((SensorEntity ∘ TimNetSensor__init__
            <$> List.filter (fun rd => negb (timnet_200_only rd)) REGISTER_DEFINITIONS)
           ++ [DoorEntity; ConnectionEntity]).
Proof.
  destruct (device_variant_filter (async_refresh (Replies wire_full_block) coordinator0)
              (dict_of_list [215; 20001; 1200; 50; 0; 2; 1; 3; 31; 2; 0; 0; 0; 0; 0; 0;
                             15; 0; 0; 0; 5; 300])
              ltac:(vm_compute; reflexivity)) as (H & _).
  apply H. right. left. vm_compute. reflexivity.
Defined.

(** X18. The attributes of a sensor always carry its key, the host and the
    port; [raw_value] is the raw word at the address of the sensor, and for a
    register of the catalog it is missing exactly when [native_value] is
    [None]. *)
Theorem raw_value_attribute_tracks_reading (c : TimNetCoordinator) (s : TimNetSensor) :
  let attrs := extra_state_attributes c s in
  attrs !! "raw_value" = VInt <$> raw_at c (_address s)
  /\ attrs !! "register_key" = Some (VStr (key (_reg_def s)))
  /\ attrs !! "host" = Some (VStr (host c))
  /\ attrs !! "port" = Some (VInt (port c))
  /\ (_reg_def s ∈ REGISTER_DEFINITIONS -> _address s = address (_reg_def s) ->
      (attrs !! "raw_value" = None <-> native_value c s = Ok VNone)).
Proof.
  cbv zeta.
  assert (Hraw : extra_state_attributes c s !! "raw_value" = VInt <$> raw_at c (_address s)).
  { unfold extra_state_attributes, raw_at, data_bool, dict_bool.
    destruct (data c) as [d|]; cbn [mbind option_bind]; [|reflexivity].
    destruct (bool_decide (d = ∅)) eqn:E; cbn [negb].
    - apply bool_decide_eq_true in E as ->. now rewrite lookup_empty.
    - destruct (d !! _address s) as [raw|]; [|reflexivity].
      now rewrite lookup_insert_eq. }
  assert (Hbase : forall k, k <> "raw_value" ->
            extra_state_attributes c s !! k
            = ({[ "address" := VStr ("0x" +:+ format_04X (_address s));
                  "register_key" := VStr (key (_reg_def s));
                  "host" := VStr (host c);
                  "port" := VInt (port c) ]} : gmap string value) !! k).
  { intros k Hk. unfold extra_state_attributes.
    destruct (data_bool (data c)); [|reflexivity].
    destruct (data c ≫= _); [|reflexivity]. now rewrite lookup_insert_ne. }
  split; [exact Hraw|].
  split; [rewrite Hbase by discriminate; reflexivity|].
  split; [rewrite Hbase by discriminate; reflexivity|].
  split; [rewrite Hbase by discriminate; reflexivity|].
  intros Hin Ha. rewrite Hraw.
  destruct s as [rd a]. cbn [_reg_def _address] in *. subst a.
  destruct (native_value_catalog c rd Hin) as (v & Hv & Hiff).
  unfold TimNetSensor__init__ in Hv. rewrite Hv.
  destruct (raw_at c (address rd)) as [raw|]; cbn [fmap option_fmap option_map].
  - split; [discriminate|]. intros [= ->]. exfalso.
    destruct Hiff as [H _]. specialize (H eq_refl). discriminate.
  - split; [|reflexivity]. intros _. f_equal. now apply Hiff.
Qed.

Lemma raw_value_attribute_tracks_reading_witness :
  extra_state_attributes coordinator_stale (TimNetSensor__init__ reg_STAT) !! "raw_value"
  = None
  /\ native_value coordinator_stale (TimNetSensor__init__ reg_STAT) = Ok VNone.
Proof.
  destruct (raw_value_attribute_tracks_reading coordinator_stale
              (TimNetSensor__init__ reg_STAT)) as (H1 & _ & _ & _ & H5).
  split; [rewrite H1; reflexivity|].
  apply H5.
  - do 13 (apply elem_of_cons; right). apply elem_of_cons; left; reflexivity.
  - reflexivity.
  - rewrite H1. reflexivity.
Defined.

(** X19. The door is open exactly when the word at address 4 is not zero, and
    unknown exactly when there is no such word; the attribute [raw_value] of
    the door sensor is that word. *)
Theorem door_attribute_tracks_state (c : TimNetCoordinator) :
  door_extra_state_attributes c !! "raw_value" = VInt <$> raw_at c 4
  /\ door_is_on c = (fun raw => negb (raw =? 0)) <$> raw_at c 4
  /\ (door_is_on c = None <-> door_extra_state_attributes c !! "raw_value" = None)
  /\ door_extra_state_attributes c !! "address" = Some (VStr "0x0004")
  /\ door_extra_state_attributes c !! "register_key" = Some (VStr "INP").
Proof.
  assert (Hraw : door_extra_state_attributes c !! "raw_value" = VInt <$> raw_at c 4).
  { unfold door_extra_state_attributes, raw_at, data_bool, dict_bool.
    destruct (data c) as [d|]; cbn [mbind option_bind]; [|reflexivity].
    destruct (bool_decide (d = ∅)) eqn:E; cbn [negb].
    - apply bool_decide_eq_true in E as ->. now rewrite lookup_empty.
    - destruct (d !! 4) as [raw|]; [|reflexivity].
      now rewrite lookup_insert_eq. }
  assert (Hdoor : door_is_on c = (fun raw => negb (raw =? 0)) <$> raw_at c 4).
  { unfold door_is_on, raw_at, data_bool, dict_bool.
    destruct (data c) as [d|]; cbn [mbind option_bind negb]; [|reflexivity].
    destruct (bool_decide (d = ∅)) eqn:E; cbn [negb].
    - apply bool_decide_eq_true in E as ->. now rewrite lookup_empty.
    - destruct (d !! 4) as [raw|]; reflexivity. }
  split; [exact Hraw|]. split; [exact Hdoor|]. split.
  - rewrite Hraw, Hdoor. destruct (raw_at c 4); cbn; split; congruence.
  - unfold door_extra_state_attributes.
    destruct (data_bool (data c)); [|split; reflexivity].
    destruct (data c ≫= _); split; reflexivity.
Qed.

Lemma door_attribute_tracks_state_witness :
  door_is_on coordinator0 = None
  /\ door_extra_state_attributes coordinator0 !! "raw_value" = None.
Proof.
  destruct (door_attribute_tracks_state coordinator0) as (_ & _ & H & _).
  split; [reflexivity|]. apply H. reflexivity.
Defined.

End PlatformFacts.

(** ** Unique ids and the coverage of the polled block *)

Section CoverageFacts.

Import ModbusClient Sensor Samples SensorPlatform ClientVocabulary SensorVocabulary.

Lemma append_inj (p s t : string) : p +:+ s = p +:+ t -> s = t.
Proof. induction p as [|a p IH]; cbn; [auto|]. intros [= H]. auto. Qed.

Lemma unique_id_key (entry_id : string) (e : entity) :
  unique_id entry_id e = entry_id +:+ "_" +:+ entity_key e.
Proof. destruct e; reflexivity. Qed.

Lemma add_entities_cases (c : TimNetCoordinator) (entities : list entity) :
  add_entities c = Added entities ->
  entities = (SensorEntity ∘ TimNetSensor__init__
              <$> List.filter (fun rd => negb (timnet_200_only rd)) REGISTER_DEFINITIONS)
             ++ [DoorEntity; ConnectionEntity]
  \/ entities = (SensorEntity ∘ TimNetSensor__init__ <$> REGISTER_DEFINITIONS)
                ++ [DoorEntity; ConnectionEntity].
Proof.
  unfold add_entities, REGISTER_DEFINITIONS. cbn [foldl]. unfold setup_step.
  cbn [timnet_200_only]. destruct (data c) as [d|]; [|discriminate].
  destruct (t2_inactive _); intros [= <-]; [left|right]; reflexivity.
Qed.

(** X23. The entities handed over by the set-up loop have pairwise distinct
    unique ids, for every entry id. *)
Theorem unique_ids_are_distinct
    (c : TimNetCoordinator) (entities : list entity) (entry_id : string) :
  add_entities c = Added entities ->
  NoDup (unique_id entry_id <$> entities).
Proof.
  intros Ha.
  assert (Hk : NoDup (entity_key <$> entities)).
  { destruct (add_entities_cases c entities Ha) as [-> | ->];
      apply (bool_decide_unpack _); vm_compute; exact I. }
  rewrite (list_fmap_ext (unique_id entry_id)
             (fun e => (fun k => entry_id +:+ "_" +:+ k) (entity_key e)) entities)
    by (intros; apply unique_id_key).
  rewrite (list_fmap_compose entity_key (fun k => entry_id +:+ "_" +:+ k)).
  apply NoDup_fmap_2; [|exact Hk].
  intros k1 k2 H. apply append_inj in H. now apply (append_inj "_") in H.
Qed.

Lemma unique_ids_are_distinct_witness :
  NoDup (unique_id "entry"
           <$> (SensorEntity ∘ TimNetSensor__init__ <$> REGISTER_DEFINITIONS)
               ++ [DoorEntity; ConnectionEntity]).
Proof.
  apply (unique_ids_are_distinct
           (mkCoord "10.0.0.11" 502 1 {[ 0 := 215 ]} true (Some {[ 0 := 215 ]}))).
  reflexivity.
Defined.

Lemma catalog_address (rd : reg_def) :
  rd ∈ REGISTER_DEFINITIONS -> 0 <= address rd < 22.
Proof.
  unfold REGISTER_DEFINITIONS. intros Hin.
  repeat (apply elem_of_cons in Hin as [->|Hin]; [cbn; lia|]).
  now apply elem_of_nil in Hin.
Qed.

(** X24. The block of 22 registers covers the catalog: after a poll answered by
    a well-formed reply with at least 22 words, every sensor of the catalog
    reports a value, the door state is known and the connection indicator is
    on. *)
Theorem full_block_feeds_every_sensor (wire : bytes) (c : TimNetCoordinator) :
  0 <= unit_id c <= 255 -> well_formed 22 (received wire) = true ->
  let c' := async_refresh (Replies wire) c in
  (forall rd, rd ∈ REGISTER_DEFINITIONS ->
     exists v, native_value c' (TimNetSensor__init__ rd) = Ok v /\ v <> VNone)
  /\ (exists b, door_is_on c' = Some b)
  /\ is_on c' = true.
Proof.
  intros Hu Hwf c'. subst c'.
  destruct (well_formed_inv 22 _ Hwf) as (fc & bc & body & Hd & Hfc & Hbc & Hbody).
  set (ws := words (take (Z.to_nat (ord bc)) body)).
  assert (Hlen : (22 <= length ws)%nat).
  { subst ws. rewrite length_words, length_take.
    unfold len in Hbody. apply Nat.div_le_lower_bound; lia. }
  assert (Hf : _fetch_data (Replies wire) c = Ok (dict_of_list (take 22 ws))).
  { rewrite fetch_data_outcome, read_outcome_replies by lia.
    now rewrite (reply_outcome_payload 22 _ fc bc body Hd Hfc). }
  assert (Hlook : forall k, 0 <= k < 22 -> is_Some (dict_of_list (take 22 ws) !! k)).
  { intros k Hk. rewrite dict_of_list_lookup, decide_True by lia.
    apply lookup_lt_is_Some_2. rewrite length_take. lia. }
  assert (Hne : dict_of_list (take 22 ws) <> ∅).
  { intros He. destruct (Hlook 0 ltac:(lia)) as [w Hw].
    rewrite He, lookup_empty in Hw. discriminate. }
  rewrite (refresh_success _ _ _ Hf Hne).
  split; [|split].
  - intros rd Hin.
    destruct (native_value_catalog
                (mkCoord (host c) (port c) (unit_id c) (dict_of_list (take 22 ws)) true
                         (Some (dict_of_list (take 22 ws)))) rd Hin) as (v & Hv & Hiff).
    exists v. split; [exact Hv|]. intros ->.
    destruct Hiff as [Hnone _]. specialize (Hnone eq_refl).
    unfold raw_at in Hnone. cbn in Hnone.
    destruct (Hlook (address rd) (catalog_address rd Hin)) as [w Hw]. congruence.
  - unfold door_is_on, data_bool. cbn [data].
    rewrite (proj2 (dict_bool_true _) Hne). cbn [negb mbind option_bind].
    destruct (Hlook 4 ltac:(lia)) as [w Hw]. rewrite Hw. eexists. reflexivity.
  - unfold is_on, data_bool. cbn [data connection_ok].
    now rewrite (proj2 (dict_bool_true _) Hne).
Qed.

Lemma full_block_feeds_every_sensor_witness :
  exists b, door_is_on (async_refresh (Replies wire_full_block) coordinator0) = Some b.
Proof.
  destruct (full_block_feeds_every_sensor wire_full_block coordinator0
              ltac:(cbn; lia) ltac:(vm_compute; reflexivity)) as (_ & H & _).
  exact H.
Defined.

End CoverageFacts.

(** ** The connection test of the config flow *)

Section ConfigFlowFacts.

Import ModbusClient Samples ClientVocabulary ConfigFlow.

Lemma test_connection_run (p : peer) (host : string) (port unit : Z) :
  0 <= unit <= 255 ->
  _test_connection p host port unit []
  = (match p with
     | ConnectFails msg | SendFails msg | RecvFails msg =>
         inl (Reraised (SocketError msg))
     | Replies wire =>
         if len (received wire) <? 9 then inl (ConnectionError "Invalid response")
         else inr true
     end,
     exchange_events (ModbusClient.__init__ host port default_timeout unit) p
       (request_adu 1 unit 0 1)).
Proof.
  intros Hu. unfold _test_connection, probe_connection, probe_sendall, probe_recv.
  rewrite (pack_B_ok unit Hu).
  destruct p as [msg|msg|msg|wire]; try reflexivity.
  unfold mbind, P_bind, mret, P_ret, note, fail, of_result. cbn -[Z.ltb take].
  change (take (Z.to_nat 4096) wire) with (received wire).
  destruct (len (received wire) <? 9); reflexivity.
Qed.

(** X20. With a unit id that fits a byte, [_test_connection] returns [True]
    exactly when the device replies with at least nine bytes, whatever they
    are; it never returns [False]; a shorter reply raises [ConnectionError],
    and a socket failure is raised again unchanged. *)
Theorem probe_accepts_any_nine_bytes (p : peer) (host : string) (port unit : Z) :
  0 <= unit <= 255 ->
  let out := fst (_test_connection p host port unit []) in
  (out = inr true <-> exists wire, p = Replies wire /\ 9 <= len (received wire))
  /\ out <> inr false
  /\ (forall wire, p = Replies wire -> len (received wire) < 9 ->
      out = inl (ConnectionError "Invalid response"))
  /\ (forall msg, p = ConnectFails msg \/ p = SendFails msg \/ p = RecvFails msg ->
      out = inl (Reraised (SocketError msg))).
Proof.
  intros Hu out. subst out. rewrite (test_connection_run p host port unit Hu). cbn [fst].
  split; [|split; [|split]].
  - destruct p as [msg|msg|msg|wire].
    1-3: split; [discriminate|intros (w & [=] & _)].
    destruct (Z.ltb_spec (len (received wire)) 9).
    + split; [discriminate|]. intros (w & [= <-] & Hw). lia.
    + split; [|reflexivity]. intros _. exists wire. split; [reflexivity|assumption].
  - destruct p as [msg|msg|msg|wire]; try discriminate.
    destruct (len (received wire) <? 9); discriminate.
  - intros wire -> Hlt. destruct (Z.ltb_spec (len (received wire)) 9); [reflexivity|lia].
  - intros msg [->|[->| ->]]; reflexivity.
Qed.

Lemma probe_accepts_any_nine_bytes_witness :
  fst (_test_connection (Replies wire_exception) "10.0.0.11" 502 1 []) = inr true
  /\ fst (_test_connection (Replies wire_function_code_only) "10.0.0.11" 502 1 [])
     = inl (ConnectionError "Invalid response").
Proof.
  destruct (probe_accepts_any_nine_bytes (Replies wire_exception) "10.0.0.11" 502 1
              ltac:(lia)) as (H1 & _).
  destruct (probe_accepts_any_nine_bytes (Replies wire_function_code_only) "10.0.0.11"
              502 1 ltac:(lia)) as (_ & _ & H3 & _).
  split.
  - apply H1. exists wire_exception. split; [reflexivity|]. vm_compute. discriminate.
  - apply (H3 wire_function_code_only eq_refl). vm_compute. reflexivity.
Defined.

(** X21. On the network, [_test_connection] does exactly what a new client
    does for [read_holding_registers(0, 1)]: same connection, same twelve
    bytes, same receive and close. *)
Theorem probe_is_the_first_read_on_the_wire (p : peer) (host : string) (port unit : Z) :
  0 <= unit <= 255 ->
  snd (_test_connection p host port unit [])
  = log (snd (read_holding_registers p 0 1
                (mkState (ModbusClient.__init__ host port default_timeout unit) []))).
Proof.
  intros Hu. rewrite (test_connection_run p host port unit Hu). cbn [snd].
  rewrite read_holding_registers_state by lia. cbv zeta.
  cbn [log self ModbusClient.unit ModbusClient.__init__ app].
  destruct (Z.leb_spec 0 unit); [|lia]. destruct (Z.leb_spec unit 255); [|lia].
  reflexivity.
Qed.

Lemma probe_is_the_first_read_on_the_wire_witness :
  snd (_test_connection (Replies wire_one_word) "10.0.0.11" 502 1 [])
  = log (snd (read_holding_registers (Replies wire_one_word) 0 1 (mkState client0 []))).
Proof.
  apply (probe_is_the_first_read_on_the_wire (Replies wire_one_word) "10.0.0.11" 502 1).
  lia.
Defined.

(** X22. A reply accepted by [_test_connection] never makes a read fail for
    its length: the read reports the Modbus exception when the function code
    has the exception bit, and returns words otherwise. *)
Theorem accepted_reply_is_readable
    (wire : bytes) (host : string) (port unit address count : Z) (st : state) :
  0 <= unit <= 255 -> 0 <= ModbusClient.unit (self st) <= 255 -> 1 <= count <= 125 ->
  fst (_test_connection (Replies wire) host port unit []) = inr true ->
  exists fc rest,
    drop 7 (received wire) = fc :: rest
    /\ (Z.testbit (ord fc) 7 = true ->
        fst (read_holding_registers (Replies wire) address count st)
        = Raise (IOError ("Exception response: " +:+ hex (fc :: rest))))
    /\ (Z.testbit (ord fc) 7 = false ->
        exists regs, fst (read_holding_registers (Replies wire) address count st) = Ok regs).
Proof.
  intros Hu Hu' Hc Ht.
  rewrite (test_connection_run (Replies wire) host port unit Hu) in Ht. cbn [fst] in Ht.
  destruct (Z.ltb_spec (len (received wire)) 9) as [|H9]; [discriminate|].
  rewrite read_holding_registers_replies by assumption.
  destruct (drop 7 (received wire)) as [|fc [|bc body]] eqn:Hd.
  - apply (f_equal length) in Hd. rewrite length_drop in Hd. unfold len in H9.
    cbn [length] in Hd. lia.
  - apply (f_equal length) in Hd. rewrite length_drop in Hd. unfold len in H9.
    cbn [length] in Hd. lia.
  - exists fc, (bc :: body). split; [reflexivity|]. split.
    + intros Hbit. unfold reply_outcome. rewrite Hd.
      destruct (Z.ltb_spec (len (received wire)) 7); [lia|].
      rewrite high_bit_test, Hbit. reflexivity.
    + intros Hbit. eexists. apply reply_outcome_payload with (fc := fc); [exact Hd|].
      rewrite <- high_bit_test in Hbit. apply negb_false_iff in Hbit.
      now apply Z.eqb_eq in Hbit.
Qed.

Lemma accepted_reply_is_readable_witness :
  exists regs,
    fst (read_holding_registers (Replies wire_one_word) 0 22 (mkState client0 []))
    = Ok regs.
Proof.
  destruct (accepted_reply_is_readable wire_one_word "10.0.0.11" 502 1 0 22
              (mkState client0 []) ltac:(lia) ltac:(cbn; lia) ltac:(lia)
              ltac:(vm_compute; reflexivity)) as (fc & rest & Hd & _ & Hok).
  apply Hok. injection Hd as <- _. reflexivity.
Defined.

End ConfigFlowFacts.
